(** * Feedback statistics dashboard: the aggregation pipeline of
      [feedback_app.py], embedded shallowly and verified.

    The script reads a table with pandas, lets the user tick the columns
    that hold Likert answers, and computes the rows of a diverging bar
    chart.  Everything between the submit button and the chart object
    (lines 76-142 of the script) is a deterministic transformation of the
    loaded frame and the ticked columns; that transformation is what is
    modelled here.

    Conventions of the embedding:
    - a Python [str] is the list of its Unicode code points ([len] and
      slicing count code points, [sorted] compares code points);
    - a Python [dict] is an insertion-ordered association list;
    - a pandas frame is a list of column labels with a list of rows; the
      pandas operations are given the meaning they have in pandas 2.x,
      including the places where they raise on a clash of column labels;
    - [Count] and [Total] are naturals (pandas holds them in int64, which a
      row count cannot overflow), and [Count / Total] is the exact
      rational of which pandas stores the nearest double. *)

From Stdlib Require Import String Ascii.
From Stdlib Require Import List Arith ZArith NArith QArith Lia Bool.
From Stdlib Require Import Sorted Permutation DecimalNat.
Import ListNotations.

Local Close Scope Q_scope.
Local Open Scope nat_scope.
Local Open Scope list_scope.

(* ===================================================================== *)
(** ** Python strings *)

Module PyStr.

(** A code point. *)
Definition char := N.

(** A Python [str]. *)
Definition str := list char.

(** An ASCII literal of the script, as code points. *)
Definition lit (s : string) : str :=
  map N_of_ascii (list_ascii_of_string s).

(** [a == b] on strings. *)
Fixpoint eqb (a b : str) : bool :=
  match a, b with
  | [], [] => true
  | x :: a', y :: b' => N.eqb x y && eqb a' b'
  | _, _ => false
  end.

(** The order [<] and [sorted] use: lexicographic on code points, a
    proper prefix first. *)
Fixpoint compare (a b : str) : comparison :=
  match a, b with
  | [], [] => Eq
  | [], _ :: _ => Lt
  | _ :: _, [] => Gt
  | x :: a', y :: b' =>
      match N.compare x y with
      | Eq => compare a' b'
      | c => c
      end
  end.

(** [a <= b]. *)
Definition leb (a b : str) : bool :=
  match compare a b with Gt => false | _ => true end.

(** [a < b]. *)
Definition ltb (a b : str) : bool :=
  match compare a b with Lt => true | _ => false end.

(** [x in xs] for a list of strings. *)
Definition mem (x : str) (xs : list str) : bool := existsb (eqb x) xs.

(** [s.startswith(p)]. *)
Fixpoint startswith (p s : str) : bool :=
  match p, s with
  | [], _ => true
  | x :: p', y :: s' => N.eqb x y && startswith p' s'
  | _ :: _, [] => false
  end.

(** [sub in s]: substring test. *)
Fixpoint contains (sub s : str) : bool :=
  startswith sub s ||
  match s with
  | [] => false
  | _ :: s' => contains sub s'
  end.

(** The digits of a [Decimal.uint], most significant first. *)
Fixpoint digits (d : Decimal.uint) : str :=
  match d with
  | Decimal.Nil => []
  | Decimal.D0 d => 48%N :: digits d
  | Decimal.D1 d => 49%N :: digits d
  | Decimal.D2 d => 50%N :: digits d
  | Decimal.D3 d => 51%N :: digits d
  | Decimal.D4 d => 52%N :: digits d
  | Decimal.D5 d => 53%N :: digits d
  | Decimal.D6 d => 54%N :: digits d
  | Decimal.D7 d => 55%N :: digits d
  | Decimal.D8 d => 56%N :: digits d
  | Decimal.D9 d => 57%N :: digits d
  end.

(** What an f-string writes for a non-negative [int]. *)
Definition of_nat (n : nat) : str := digits (Nat.to_uint n).

(** A code point that is one of '0'..'9'. *)
Definition is_digit (c : char) : bool := (N.leb 48 c && N.leb c 57)%N.

End PyStr.

Abbreviation str := PyStr.str.

(* ===================================================================== *)
(** ** Python dicts *)

Module Dict.

(** Insertion-ordered dictionary with string keys. *)
Definition dict (V : Type) := list (str * V).

Section Ops.
Context {V : Type}.

(** [d[k] = v]: replaces the value in place when [k] is present,
    appends the item otherwise. *)
Fixpoint set (k : str) (v : V) (d : dict V) : dict V :=
  match d with
  | [] => [(k, v)]
  | (k', v') :: d' =>
      if PyStr.eqb k' k then (k', v) :: d' else (k', v') :: set k v d'
  end.

(** [d.get(k)]. *)
Fixpoint get (k : str) (d : dict V) : option V :=
  match d with
  | [] => None
  | (k', v') :: d' => if PyStr.eqb k' k then Some v' else get k d'
  end.

Definition keys (d : dict V) : list str := map fst d.
Definition values (d : dict V) : list V := map snd d.
Definition items (d : dict V) : list (str * V) := d.

(** Storing one item. *)
Definition store (d : dict V) (kv : str * V) : dict V :=
  set (fst kv) (snd kv) d.

(** A dict display [{k1: v1, ...}] or comprehension: the items are
    stored left to right. *)
Definition of_items (l : list (str * V)) : dict V :=
  fold_left store l [].
End Ops.

End Dict.

(** [enumerate(l)]. *)
Definition enumerate {A : Type} (l : list A) : list (nat * A) :=
  combine (seq 0 (length l)) l.

(* ===================================================================== *)
(** ** The short display names (lines 136-142) *)

(** The value expression of the comprehension at line 137, for the pair
    [(i, col_name)]. *)
Definition short_name (i : nat) (col_name : str) : str :=
  if 60 <? length col_name
  then PyStr.of_nat (i + 1) ++ PyStr.lit ". " ++ firstn 60 col_name
         ++ PyStr.lit "..."
  else PyStr.of_nat (i + 1) ++ PyStr.lit ". " ++ col_name.

(** The items [col_name: ...] of the comprehension at lines 136-139, one
    for each [(i, col_name)] of [enumerate(feedback_cols)]. *)
Definition short_items (feedback_cols : list str) : list (str * str) :=
  map (fun ic => (snd ic, short_name (fst ic) (snd ic)))
      (enumerate feedback_cols).

(** [criterion_short_map] (lines 136-139). *)
Definition criterion_short_map (feedback_cols : list str) : Dict.dict str :=
  Dict.of_items (short_items feedback_cols).

(** Insertion into a list sorted by [<=] on strings. *)
Fixpoint insert_sorted (x : str) (l : list str) : list str :=
  match l with
  | [] => [x]
  | y :: l' => if PyStr.leb x y then x :: l else y :: insert_sorted x l'
  end.

(** [sorted(l)] for a list of strings. *)
Definition sorted (l : list str) : list str :=
  fold_right insert_sorted [] l.

(** [sorted_criteria] (line 142). *)
Definition sorted_criteria (feedback_cols : list str) : list str :=
  sorted (Dict.values (criterion_short_map feedback_cols)).

(* ===================================================================== *)
(** ** Exceptions *)

(** How a run of the analysis block can end early: [SelectionError] is
    the [st.error] / [st.stop] pair of lines 82-84; the other two are the
    exceptions pandas raises in it. *)
Inductive exn := SelectionError | ValueError | KeyError.

Inductive outcome (A : Type) : Type :=
| Ok (a : A)
| Raise (e : exn).
Arguments Ok {A} a.
Arguments Raise {A} e.

Definition bind {A B : Type} (c : outcome A) (k : A -> outcome B) : outcome B :=
  match c with
  | Ok a => k a
  | Raise e => Raise e
  end.

Notation "x <- c ;; k" := (bind c (fun x => k))
  (at level 61, c at next level, right associativity).

(* ===================================================================== *)
(** ** The pandas operations the script calls *)

Module Pandas.

(** A cell as [read_csv] / [read_excel] deliver it: text, a number, or
    missing. *)
Inductive cell :=
| Str (s : str)
| Num (z : Z)
| NaN.

(** A frame: its column labels and its rows. *)
Record DataFrame := { columns : list str; rows : list (list cell) }.

(** [len(df)]. *)
Definition len (df : DataFrame) : nat := length (rows df).

(** Position of a label among the columns. *)
Fixpoint index_of (c : str) (cols : list str) : option nat :=
  match cols with
  | [] => None
  | x :: xs => if PyStr.eqb x c then Some 0 else option_map S (index_of c xs)
  end.

(** The cell of row [r] under the label [c]. *)
Definition cell_at (cols : list str) (r : list cell) (c : str) : cell :=
  match index_of c cols with
  | Some i => nth i r NaN
  | None => NaN
  end.

(** A row of the long frame: the identifier cells, then the columns
    ['Criterion'] and ['Response']. *)
Record LongRow :=
  { l_ids : list cell; l_Criterion : str; l_Response : cell }.

(** The long frame; [id_labels] are the labels of the identifier columns. *)
Record LongFrame := { id_labels : list str; long_rows : list LongRow }.

(** The cell of the long row made of row [r] and the value column [c]
    under the identifier label [l].  The melt keeps the columns of the
    long frame by label, so an identifier column labelled like the
    variable column is replaced by it. *)
Definition id_cell (df : DataFrame) (c : str) (r : list cell) (l : str) : cell :=
  if PyStr.eqb l (PyStr.lit "Criterion") then Str c
  else cell_at (columns df) r l.

(** The long row made of row [r] and the value column [c]. *)
Definition melt_row (df : DataFrame) (id_vars : list str) (c : str)
           (r : list cell) : LongRow :=
  {| l_ids := map (id_cell df c r) id_vars;
     l_Criterion := c;
     l_Response := cell_at (columns df) r c |}.

(** The rows of the melted frame: the value columns one after the
    other, each over all rows of the frame. *)
Definition melt_rows (df : DataFrame) (id_vars value_vars : list str)
  : list LongRow :=
  flat_map (fun c => map (melt_row df id_vars c) (rows df)) value_vars.

(** [df.melt(id_vars, value_vars, var_name='Criterion',
    value_name='Response')].  pandas raises [ValueError] when
    [value_name] is already a column label of the frame (the
    documentation of [melt]: it cannot be an existing column label), and
    [KeyError] when one of [id_vars], [value_vars] is not a label of the
    frame. *)
Definition melt (df : DataFrame) (id_vars value_vars : list str)
  : outcome LongFrame :=
  if PyStr.mem (PyStr.lit "Response") (columns df) then Raise ValueError
  else if negb (forallb (fun l => PyStr.mem l (columns df)) (id_vars ++ value_vars))
  then Raise KeyError
  else Ok {| id_labels := id_vars;
             long_rows := melt_rows df id_vars value_vars |}.

(** [series.map(d)] on one cell: the value under the key, missing when
    the cell is not a key of [d]. *)
Definition series_map (d : Dict.dict str) (v : cell) : option str :=
  match v with
  | Str s => Dict.get s d
  | _ => None
  end.

Section GroupBy.
Context {K : Type} (eqb leb : K -> K -> bool).

(** The distinct keys, in order of first appearance. *)
Fixpoint unique (l : list K) : list K :=
  match l with
  | [] => []
  | x :: l' => x :: filter (fun y => negb (eqb x y)) (unique l')
  end.

(** Size of the group of [k]. *)
Definition group_size (k : K) (l : list K) : nat :=
  length (filter (eqb k) l).

Fixpoint insert_key (x : K) (l : list K) : list K :=
  match l with
  | [] => [x]
  | y :: l' => if leb x y then x :: l else y :: insert_key x l'
  end.

Definition sort_keys (l : list K) : list K := fold_right insert_key [] l.

(** [groupby(keys).size().reset_index(name=...)]: one row per distinct
    key, in sorted key order (the default [sort=True]), with the number
    of rows of the group. *)
Definition groupby_size (l : list K) : list (K * nat) :=
  map (fun k => (k, group_size k l)) (sort_keys (unique l)).
End GroupBy.

End Pandas.

Import Pandas.

(* ===================================================================== *)
(** ** The analysis block (lines 76-142) *)

(** The four answers the script recognises (lines 103-106): the text is
    followed by an emoji, given here by its code points. *)
Definition StronglyAgree_resp : str := PyStr.lit "Strongly Agree " ++ [9989%N].
Definition Agree_resp : str := PyStr.lit "Agree " ++ [9995%N; 127995%N].
Definition Disagree_resp : str := PyStr.lit "Disagree " ++ [9888%N; 65039%N].
Definition StronglyDisagree_resp : str :=
  PyStr.lit "Strongly Disagree " ++ [9940%N; 65039%N].

Definition response_to_category : Dict.dict str :=
  Dict.of_items
    [ (StronglyAgree_resp, PyStr.lit "Strongly Agree");
      (Agree_resp, PyStr.lit "Agree");
      (Disagree_resp, PyStr.lit "Disagree");
      (StronglyDisagree_resp, PyStr.lit "Strongly Disagree") ].

Definition response_to_sentiment : Dict.dict str :=
  Dict.of_items
    [ (StronglyAgree_resp, PyStr.lit "Positive");
      (Agree_resp, PyStr.lit "Positive");
      (Disagree_resp, PyStr.lit "Negative");
      (StronglyDisagree_resp, PyStr.lit "Negative") ].

(** A row of [df_long] once lines 116-117 have added the two mapped
    columns ([None] is a missing value).  An identifier column that bore
    one of the two labels is overwritten by the assignment; identifier
    columns are not read after the melt. *)
Record CatRow :=
  { c_long : LongRow;
    c_Category : option str;
    c_Sentiment : option str }.

Definition add_categories (l : list LongRow) : list CatRow :=
  map (fun r =>
         {| c_long := r;
            c_Category := series_map response_to_category (l_Response r);
            c_Sentiment := series_map response_to_sentiment (l_Response r) |})
      l.

(** [dropna(subset=['Response Category', 'Sentiment'])] (line 120). *)
Definition dropna (l : list CatRow) : list CatRow :=
  filter (fun r =>
            match c_Category r, c_Sentiment r with
            | Some _, Some _ => true
            | _, _ => false
            end) l.

(** Grouping keys of line 123; [groupby] leaves out rows with a missing
    key. *)
Definition key := (str * str * str)%type.

Definition key_of (r : CatRow) : option key :=
  match c_Category r, c_Sentiment r with
  | Some c, Some s => Some (l_Criterion (c_long r), c, s)
  | _, _ => None
  end.

Fixpoint keys_of (l : list CatRow) : list key :=
  match l with
  | [] => []
  | r :: l' =>
      match key_of r with
      | Some k => k :: keys_of l'
      | None => keys_of l'
      end
  end.

Definition key_eqb (a b : key) : bool :=
  let '(a1, a2, a3) := a in
  let '(b1, b2, b3) := b in
  PyStr.eqb a1 b1 && PyStr.eqb a2 b2 && PyStr.eqb a3 b3.

(** Tuples of strings compare component by component. *)
Definition key_leb (a b : key) : bool :=
  let '(a1, a2, a3) := a in
  let '(b1, b2, b3) := b in
  match PyStr.compare a1 b1 with
  | Lt => true
  | Gt => false
  | Eq =>
      match PyStr.compare a2 b2 with
      | Lt => true
      | Gt => false
      | Eq => PyStr.leb a3 b3
      end
  end.

(** Selecting the column labelled ['Criterion'] of the long frame for a
    [groupby]: when an identifier column bears that label too, the long
    frame has two columns of that label, the key is not one-dimensional
    and pandas raises [ValueError]. *)
Definition criterion_grouper (id_vars : list str) : outcome unit :=
  if PyStr.mem (PyStr.lit "Criterion") id_vars then Raise ValueError
  else Ok tt.

(** [pd.merge(df_counts, df_totals, on='Criterion')]: inner join, in the
    order of the left frame. *)
Definition merge (counts : list (key * nat)) (totals : list (str * nat))
  : list (key * nat * nat) :=
  flat_map
    (fun c =>
       map (fun t => (fst c, snd c, snd t))
           (filter (fun t => PyStr.eqb (fst t) (fst (fst (fst c)))) totals))
    counts.

(** A row of [df_perc] as the chart receives it. *)
Record AggregateRow :=
  { Criterion : cell;
    ResponseCategory : str;
    Sentiment : str;
    Count : nat;
    Total : nat;
    Percentage : Q;
    DivergingPercentage : Q }.

(** [Count / Total] (line 126), as the exact quotient.  pandas stores
    the double nearest to it; what is stated of a [Percentage] below is
    what rounding to nearest keeps: its bounds, its sign, and its value
    where the quotient is given. *)
Definition true_div (a b : nat) : Q :=
  (inject_Z (Z.of_nat a) / inject_Z (Z.of_nat b))%Q.

(** The lambda of line 130. *)
Definition diverging (sentiment : str) (percentage : Q) : Q :=
  if PyStr.eqb sentiment (PyStr.lit "Negative")
  then (percentage * inject_Z (-1))%Q
  else percentage.

(** [series.map(criterion_short_map)] on one criterion (line 141). *)
Definition map_criterion (m : Dict.dict str) (c : str) : cell :=
  match Dict.get c m with
  | Some s => Str s
  | None => NaN
  end.

Definition perc_row (m : Dict.dict str) (x : key * nat * nat) : AggregateRow :=
  let '((crit, cat, sent), count, total) := x in
  let percentage := true_div count total in
  {| Criterion := map_criterion m crit;
     ResponseCategory := cat;
     Sentiment := sent;
     Count := count;
     Total := total;
     Percentage := percentage;
     DivergingPercentage := diverging sent percentage |}.

(** What the block hands to the chart: [total_responses] (for the title),
    [df_perc], and [sorted_criteria] as the field [sorted_labels]. *)
Record AggregateResult :=
  { total_responses : nat;
    df_perc : list AggregateRow;
    sorted_labels : list str }.

(** The recognised rows of the long frame (lines 116-120). *)
Definition categorized (lf : LongFrame) : list CatRow :=
  dropna (add_categories (long_rows lf)).

(** The [id_vars] argument of line 94. *)
Definition id_vars_of (df : DataFrame) (feedback_cols : list str) : list str :=
  filter (fun col => negb (PyStr.mem col feedback_cols)) (columns df).

(** The frames of lines 123-125 for the recognised rows. *)
Definition df_counts (rows : list CatRow) : list (key * nat) :=
  groupby_size key_eqb key_leb (keys_of rows).

Definition df_totals (rows : list CatRow) : list (str * nat) :=
  groupby_size PyStr.eqb PyStr.leb (map (fun r => l_Criterion (c_long r)) rows).

(** Lines 82-142 for a loaded frame and the ticked columns. *)
Definition aggregate (df : DataFrame) (feedback_cols : list str)
  : outcome AggregateResult :=
  match feedback_cols with
  | [] => Raise SelectionError
  | _ :: _ =>
      df_long <- melt df (id_vars_of df feedback_cols) feedback_cols ;;
      let rows := categorized df_long in
      _ <- criterion_grouper (id_labels df_long) ;;
      let m := criterion_short_map feedback_cols in
      Ok {| total_responses := len df;
            df_perc := map (perc_row m) (merge (df_counts rows) (df_totals rows));
            sorted_labels := sorted (Dict.values m) |}
  end.

(** *** The form (lines 55-79) *)

(** Line 65. *)
Definition pre_check (col : str) : bool :=
  PyStr.contains (PyStr.lit "Teacher-Specific Reflection") col
  || PyStr.contains [128073%N] col.

Section Form.
(** [st.checkbox(label, value)]: the state of the box when the form is
    submitted. *)
Variable st_checkbox : str -> bool -> bool.

(** Lines 60-68. *)
Definition checkbox_states (all_columns : list str) : Dict.dict bool :=
  fold_left (fun d col => Dict.set col (st_checkbox col (pre_check col)) d)
            all_columns [].

(** Line 79. *)
Definition feedback_cols_of (states : Dict.dict bool) : list str :=
  map fst (filter snd (Dict.items states)).

(** The whole [if submitted:] block. *)
Definition on_submit (df : DataFrame) : outcome AggregateResult :=
  aggregate df (feedback_cols_of (checkbox_states (columns df))).
End Form.

(* ===================================================================== *)
(** ** Notions used in the statements *)

(** A cell that holds one of the four recognised answers. *)
Definition recognized (v : cell) : bool :=
  match v with
  | Str s =>
      PyStr.mem s [StronglyAgree_resp; Agree_resp; Disagree_resp;
                   StronglyDisagree_resp]
  | _ => false
  end.

(** What the two [map] calls of lines 116-117 give for one cell. *)
Inductive mapped : cell -> option str -> option str -> Prop :=
| mapped_sa : mapped (Str StronglyAgree_resp)
                     (Some (PyStr.lit "Strongly Agree")) (Some (PyStr.lit "Positive"))
| mapped_a : mapped (Str Agree_resp)
                    (Some (PyStr.lit "Agree")) (Some (PyStr.lit "Positive"))
| mapped_d : mapped (Str Disagree_resp)
                    (Some (PyStr.lit "Disagree")) (Some (PyStr.lit "Negative"))
| mapped_sd : mapped (Str StronglyDisagree_resp)
                     (Some (PyStr.lit "Strongly Disagree")) (Some (PyStr.lit "Negative"))
| mapped_none v : recognized v = false -> mapped v None None.

(** A cell that holds the answer recorded under the category [cat]. *)
Definition answers (cat : str) (v : cell) : bool :=
  match series_map response_to_category v with
  | Some c => PyStr.eqb c cat
  | None => false
  end.

(** The rows of the result shown under the label [lab]. *)
Definition criterion_is (lab : str) (r : AggregateRow) : bool :=
  match Criterion r with
  | Str s => PyStr.eqb s lab
  | _ => false
  end.

(** A selection of question columns of a frame: some of its columns,
    none twice. *)
Definition selection (df : DataFrame) (cols : list str) : Prop :=
  NoDup cols /\ incl cols (columns df).

(** No label of the frame collides with the two labels the melt
    introduces. *)
Definition labels_free (df : DataFrame) (cols : list str) : Prop :=
  ~ In (PyStr.lit "Response") (columns df) /\
  ~ In (PyStr.lit "Criterion") (id_vars_of df cols).

(** The column of a frame under a label, top to bottom. *)
Definition column (df : DataFrame) (c : str) : list cell :=
  map (fun r => cell_at (columns df) r c) (rows df).

(** The criterion of a grouping key. *)
Definition crit (k : key) : str := fst (fst k).

(** The grouping keys of the recognised rows among the long rows [l]. *)
Definition long_keys (l : list LongRow) : list key :=
  keys_of (dropna (add_categories l)).

(** The grouping keys of line 123 for a frame and the ticked columns. *)
Definition keys_for (df : DataFrame) (feedback_cols : list str) : list key :=
  long_keys (melt_rows df (id_vars_of df feedback_cols) feedback_cols).

(** The row of [df_perc] for the group of [k] among the keys [keys]. *)
Definition row_for (m : Dict.dict str) (keys : list key) (k : key)
  : AggregateRow :=
  perc_row m (k, group_size key_eqb k keys,
              group_size PyStr.eqb (crit k) (map crit keys)).

(** The recognised rows of the long frame that the melt of line 93
    yields when it does not raise. *)
Definition recognized_rows (df : DataFrame) (feedback_cols : list str)
  : list CatRow :=
  dropna (add_categories
            (melt_rows df (id_vars_of df feedback_cols) feedback_cols)).

(** What [aggregate] returns when nothing raises. *)
Definition result (df : DataFrame) (feedback_cols : list str)
  : AggregateResult :=
  let rows := recognized_rows df feedback_cols in
  let m := criterion_short_map feedback_cols in
  {| total_responses := len df;
     df_perc := map (perc_row m) (merge (df_counts rows) (df_totals rows));
     sorted_labels := sorted (Dict.values m) |}.

(** [a <= b] on strings, as a proposition. *)
Definition str_le (a b : str) : Prop := PyStr.leb a b = true.

(* ===================================================================== *)
(** ** Frames and selections used as examples *)

(** A column name of 70 characters. *)
Definition name70 : str :=
  PyStr.lit "The teacher explains the aims of every lesson clearly and on time, yes".

(** Another one, with the same first 60 characters. *)
Definition name70_twin : str :=
  PyStr.lit "The teacher explains the aims of every lesson clearly and on time, no.".

(** The two questions of [class_survey] below. *)
Definition pace_and_clarity : list str := [PyStr.lit "Pace"; PyStr.lit "Clarity"].

(** A form in which no box is ticked. *)
Definition none_ticked (col : str) (value : bool) : bool := false.

(** Three answers to one question. *)
Definition three_answers : DataFrame :=
  {| columns := [PyStr.lit "Q1"];
     rows := [ [Str StronglyAgree_resp];
               [Str Disagree_resp];
               [Str StronglyAgree_resp] ] |}.

(** Two questions next to a name column; the second question was left
    unanswered. *)
Definition class_survey : DataFrame :=
  {| columns := [PyStr.lit "Name"; PyStr.lit "Pace"; PyStr.lit "Clarity"];
     rows := [ [Str (PyStr.lit "Ada"); Str Agree_resp; Str (PyStr.lit "N/A")];
               [Str (PyStr.lit "Bo"); Str StronglyDisagree_resp; Str (PyStr.lit "N/A")];
               [Str (PyStr.lit "Cy"); Str Agree_resp; NaN];
               [Str (PyStr.lit "Di"); Num 4; Str (PyStr.lit "N/A")] ] |}.

(** An export that already has a column labelled [Response]. *)
Definition helpdesk_export : DataFrame :=
  {| columns := [PyStr.lit "Ticket"; PyStr.lit "Response"];
     rows := [ [Str (PyStr.lit "T-1"); Str Agree_resp];
               [Str (PyStr.lit "T-2"); Str Disagree_resp] ] |}.

(** A single column labelled [Response] with no recognised answer. *)
Definition unanswered_export : DataFrame :=
  {| columns := [PyStr.lit "Response"];
     rows := [ [Str (PyStr.lit "N/A")]; [Str (PyStr.lit "N/A")] ] |}.

(** A question next to a column labelled [Response]. *)
Definition mixed_export : DataFrame :=
  {| columns := [PyStr.lit "Q1"; PyStr.lit "Response"];
     rows := [ [Str Agree_resp; Str (PyStr.lit "ok")];
               [Str Disagree_resp; Str (PyStr.lit "late")] ] |}.

(** Eleven questions, in the order of the form. *)
Definition eleven_questions : list str :=
  map PyStr.lit
      [ "Pace"; "Clarity"; "Homework"; "Feedback"; "Respect"; "Materials";
        "Punctuality"; "Exams"; "Support"; "Workload"; "Overall" ]%string.

(* ===================================================================== *)
(** ** The rest of the script: reading the file, the chart, the page *)

(** [s.endswith(suffix)]. *)
Definition endswith (suffix s : str) : bool :=
  PyStr.startswith (rev suffix) (rev s).

(** What [st.file_uploader] returns once a file is chosen (line 29): its
    name and its bytes. *)
Record UploadedFile := { file_name : str; file_data : list N }.

(** Lines 145-146. *)
Definition color_domain : list str :=
  map PyStr.lit ["Strongly Agree"; "Agree"; "Disagree"; "Strongly Disagree"]%string.

Definition color_range : list str :=
  map PyStr.lit ["#006837"; "#31a354"; "#fb6a4a"; "#a50f15"]%string.

(** The colour the scale of line 155 gives a category: the entry of the
    range at the position the category has in the domain. *)
Definition color_of (category : str) : option str :=
  match index_of category color_domain with
  | Some i => nth_error color_range i
  | None => None
  end.

(** The title of line 149. *)
Definition chart_title_of (total_responses : nat) : str :=
  PyStr.lit "Student Feedback Analysis (N=" ++ PyStr.of_nat total_responses
    ++ PyStr.lit ")".

(** What is handed to [st.altair_chart]: the data, the title, the order
    of the criteria on the y axis and the colour scale (lines 148-163). *)
Record Chart :=
  { chart_data : list AggregateRow;
    chart_title : str;
    y_sort : list str;
    scale_domain : list str;
    scale_range : list str }.

Definition bar (res : AggregateResult) : Chart :=
  {| chart_data := df_perc res;
     chart_title := chart_title_of (total_responses res);
     y_sort := sorted_labels res;
     scale_domain := color_domain;
     scale_range := color_range |}.

(** A column label as a reader returns it.  [read_csv] labels every
    column with a [str]; [read_excel] keeps a header cell that holds a
    number, a date or a truth value as the value it is. *)
Inductive label :=
| LStr (s : str)
| LInt (z : Z)
| LFloat (q : Q)
| LDate (t : Z)
| LBool (b : bool).

(** A table as a reader returns it. *)
Record RawFrame := { raw_columns : list label; raw_rows : list (list cell) }.

(** The exceptions that can leave the loop that draws the form (lines
    63-68): [in] on a label that is not a [str] raises [TypeError]
    (line 65); a second [st.checkbox] with the label and the value of
    one already drawn raises Streamlit's [DuplicateWidgetID] (line 68). *)
Inductive form_exn := TypeError | DuplicateWidgetID.

(** The loop of lines 63-68 over the labels still to come, [drawn]
    being the labels of the boxes already on the page: the labels of
    all the boxes, or the exception that stops the loop. *)
Fixpoint draw_checkboxes (all_columns : list label) (drawn : list str)
  : form_exn + list str :=
  match all_columns with
  | [] => inr []
  | LStr col :: rest =>
      if PyStr.mem col drawn then inl DuplicateWidgetID
      else match draw_checkboxes rest (col :: drawn) with
           | inr cols => inr (col :: cols)
           | inl e => inl e
           end
  | _ :: _ => inl TypeError
  end.

(** What a run of the script leaves on the page. *)
Inductive page :=
| NoFile                      (* line 32: nothing below the uploader *)
| ReadFailed                  (* lines 41-43: [st.error] and [st.stop] *)
| FormRaised (e : form_exn)   (* an exception leaves the loop of the form *)
| FormOnly (df : DataFrame)   (* the form, not submitted *)
| NoColumn (df : DataFrame)   (* lines 82-84: [st.error] and [st.stop] *)
| Uncaught (e : exn)          (* an exception leaves the analysis block *)
| Shown (chart : Chart).      (* line 170 *)

Section Script.
(** [pd.read_csv] and [pd.read_excel] on the bytes of the file; [None]
    when the reader raises. *)
Variables read_csv read_excel : list N -> option RawFrame.
Variable st_checkbox : str -> bool -> bool.

(** Lines 36-43. *)
Definition read_file (f : UploadedFile) : option RawFrame :=
  if endswith (PyStr.lit ".csv") (file_name f) then read_csv (file_data f)
  else read_excel (file_data f).

(** One run of the script, for the state of the uploader and of the
    submit button.  The form is drawn on every run, before the state of
    the button is looked at; once it is drawn every label is a [str],
    and the analysis works on the frame with these labels. *)
Definition script (uploaded_file : option UploadedFile) (submitted : bool)
  : page :=
  match uploaded_file with
  | None => NoFile
  | Some f =>
      match read_file f with
      | None => ReadFailed
      | Some raw =>
          match draw_checkboxes (raw_columns raw) [] with
          | inl e => FormRaised e
          | inr all_columns =>
              let df := {| columns := all_columns; rows := raw_rows raw |} in
              if submitted then
                match on_submit st_checkbox df with
                | Ok res => Shown (bar res)
                | Raise SelectionError => NoColumn df
                | Raise e => Uncaught e
                end
              else FormOnly df
          end
      end
  end.
End Script.

(** The columns whose box is ticked when the form is submitted. *)
Definition ticked (ui : str -> bool -> bool) (col : str) : bool :=
  ui col (pre_check col).

(** Comparison of grouping keys, component by component. *)
Definition key_compare (a b : key) : comparison :=
  let '(a1, a2, a3) := a in
  let '(b1, b2, b3) := b in
  match PyStr.compare a1 b1 with
  | Eq =>
      match PyStr.compare a2 b2 with
      | Eq => PyStr.compare a3 b3
      | c => c
      end
  | c => c
  end.

(** [a <= b] on grouping keys, as a proposition. *)
Definition key_le (a b : key) : Prop := key_leb a b = true.

(** Two lists of rows that agree, row by row, on the cells under the
    labels [cols]. *)
Definition agree_on (labels cols : list str) (rows1 rows2 : list (list cell))
  : Prop :=
  Forall2 (fun r1 r2 => forall c, In c cols ->
                                  cell_at labels r1 c = cell_at labels r2 c)
          rows1 rows2.

(** A form in which the boxes are left as they are first shown. *)
Definition untouched (col : str) (value : bool) : bool := value.

(** The frame [df] is the table [raw] with its form drawn: every label
    of the table is a [str], none comes twice, and the rows are those
    of the table. *)
Definition reads_as (raw : RawFrame) (df : DataFrame) : Prop :=
  raw_columns raw = map LStr (columns df) /\
  NoDup (columns df) /\
  raw_rows raw = rows df.

(** A frame as a reader returns it when every header cell holds text. *)
Definition as_read (df : DataFrame) : RawFrame :=
  {| raw_columns := map LStr (columns df); raw_rows := rows df |}.

(** A file name, and readers that return [class_survey] for a CSV file
    and fail on anything else. *)
Definition survey_file : UploadedFile :=
  {| file_name := PyStr.lit "survey.csv"; file_data := [] |}.
Definition csv_reader (data : list N) : option RawFrame :=
  Some (as_read class_survey).
Definition failing_reader (data : list N) : option RawFrame := None.

(** A sheet whose second header cell holds the number 2024, and a reader
    that returns it. *)
Definition yearly_sheet : RawFrame :=
  {| raw_columns := [LStr (PyStr.lit "Name"); LInt 2024];
     raw_rows := [ [Str (PyStr.lit "Ada"); Str Agree_resp] ] |}.
Definition sheet_file : UploadedFile :=
  {| file_name := PyStr.lit "survey.xlsx"; file_data := [] |}.
Definition excel_reader (data : list N) : option RawFrame := Some yearly_sheet.

(** A rubric next to a question: the column left unticked is labelled
    [Criterion]. *)
Definition rubric_export : DataFrame :=
  {| columns := [PyStr.lit "Criterion"; PyStr.lit "Q1"];
     rows := [ [Str (PyStr.lit "Clarity of speech"); Str Agree_resp];
               [Str (PyStr.lit "Pace of speech"); Str Disagree_resp] ] |}.

(** A form in which every box is ticked. *)
Definition all_ticked (col : str) (value : bool) : bool := true.

(* ===================================================================== *)
(** ** Facts about strings *)

Module PyStrFacts.
Import PyStr.

Lemma eqb_refl (a : str) : eqb a a = true.
Proof.
  induction a as [|x a IH]; simpl; [reflexivity|].
  now rewrite N.eqb_refl, IH.
Qed.

Lemma eqb_eq (a b : str) : eqb a b = true <-> a = b.
Proof.
  split.
  - revert b; induction a as [|x a IH]; intros [|y b] H; simpl in H;
      try discriminate; [reflexivity|].
    apply andb_true_iff in H as [Hx Hr].
    apply N.eqb_eq in Hx. apply IH in Hr. now subst.
  - intros ->. apply eqb_refl.
Qed.

Lemma eqb_neq (a b : str) : eqb a b = false <-> a <> b.
Proof.
  rewrite <- eqb_eq. destruct (eqb a b); split; congruence.
Qed.

Lemma eqb_sym (a b : str) : eqb a b = eqb b a.
Proof.
  destruct (eqb a b) eqn:E.
  - apply eqb_eq in E. subst. symmetry. apply eqb_refl.
  - destruct (eqb b a) eqn:E'; [|reflexivity].
    apply eqb_eq in E'. subst. now rewrite eqb_refl in E.
Qed.

Lemma mem_In (x : str) (xs : list str) : mem x xs = true <-> In x xs.
Proof.
  unfold mem. rewrite existsb_exists. split.
  - intros (y & Hy & E). apply eqb_eq in E. now subst.
  - intros H. exists x. split; [assumption|apply eqb_refl].
Qed.

Lemma mem_not_In (x : str) (xs : list str) : mem x xs = false <-> ~ In x xs.
Proof.
  rewrite <- mem_In. destruct (mem x xs); split; congruence.
Qed.

Lemma compare_refl (a : str) : compare a a = Eq.
Proof.
  induction a as [|x a IH]; simpl; [reflexivity|].
  now rewrite N.compare_refl.
Qed.

Lemma compare_eq (a b : str) : compare a b = Eq -> a = b.
Proof.
  revert b; induction a as [|x a IH]; intros [|y b] H; simpl in H;
    try discriminate; [reflexivity|].
  destruct (N.compare_spec x y) as [E|L|G]; try discriminate.
  subst. f_equal. now apply IH.
Qed.

Lemma compare_antisym (a b : str) : compare b a = CompOpp (compare a b).
Proof.
  revert b; induction a as [|x a IH]; intros [|y b]; simpl; try reflexivity.
  rewrite (N.compare_antisym x y).
  destruct (N.compare x y); simpl; auto.
Qed.

Lemma compare_lt_trans (a b c : str) :
  compare a b = Lt -> compare b c = Lt -> compare a c = Lt.
Proof.
  revert b c; induction a as [|x a IH]; intros [|y b] [|z c]; simpl;
    try congruence.
  destruct (N.compare_spec x y) as [E|L|G]; try discriminate;
    destruct (N.compare_spec y z) as [E'|L'|G']; try discriminate;
    intros H1 H2; subst.
  - rewrite N.compare_refl. eauto.
  - now apply N.compare_lt_iff in L' as ->.
  - now apply N.compare_lt_iff in L as ->.
  - assert (x < z)%N as ->%N.compare_lt_iff by lia. reflexivity.
Qed.

Lemma leb_total (a b : str) : leb a b = true \/ leb b a = true.
Proof.
  unfold leb. rewrite (compare_antisym a b).
  destruct (compare a b); simpl; auto.
Qed.

Lemma leb_trans (a b c : str) :
  leb a b = true -> leb b c = true -> leb a c = true.
Proof.
  unfold leb.
  destruct (compare a b) eqn:E1; try discriminate;
    destruct (compare b c) eqn:E2; try discriminate; intros _ _.
  - apply compare_eq in E1, E2. subst. now rewrite compare_refl.
  - apply compare_eq in E1. subst. now rewrite E2.
  - apply compare_eq in E2. subst. now rewrite E1.
  - now rewrite (compare_lt_trans _ _ _ E1 E2).
Qed.

Lemma ltb_not_leb (a b : str) : ltb a b = true -> leb b a = false.
Proof.
  unfold ltb, leb. rewrite (compare_antisym a b).
  destruct (compare a b); simpl; congruence.
Qed.

(** The digits written for a number are digits, and determine it. *)
Lemma digits_are_digits (d : Decimal.uint) :
  Forall (fun c => is_digit c = true) (digits d).
Proof.
  induction d; simpl; constructor; auto.
Qed.

Lemma digits_inj (d e : Decimal.uint) : digits d = digits e -> d = e.
Proof.
  revert e; induction d; intros e H; destruct e; simpl in H;
    try discriminate; try reflexivity;
    injection H as H; f_equal; auto.
Qed.

Lemma of_nat_inj (n m : nat) : of_nat n = of_nat m -> n = m.
Proof.
  unfold of_nat. intros H.
  apply digits_inj in H. now apply Unsigned.to_uint_inj.
Qed.

(** Two texts that start with digits followed by a character that is
    not a digit start with the same digits. *)
Lemma digit_prefix_unique (p q r s : str) (x y : char) :
  Forall (fun c => is_digit c = true) p ->
  Forall (fun c => is_digit c = true) q ->
  is_digit x = false -> is_digit y = false ->
  p ++ x :: r = q ++ y :: s -> p = q.
Proof.
  intros Hp; revert q.
  induction Hp as [|a p Ha Hp IH]; intros q Hq Hx Hy E.
  - destruct Hq as [|b q Hb Hq]; [reflexivity|].
    simpl in E. injection E as E _. subst. congruence.
  - destruct Hq as [|b q Hb Hq]; simpl in E; injection E as E1 E2.
    + subst. congruence.
    + subst. f_equal. now apply IH.
Qed.

End PyStrFacts.

(* ===================================================================== *)
(** ** Facts about dicts *)

Module DictFacts.
Import Dict PyStrFacts.

Section WithValues.
Context {V : Type}.
Implicit Types (d : dict V) (k : str) (v : V) (l : list (str * V)).

Lemma get_set_same k v d : get k (set k v d) = Some v.
Proof.
  induction d as [|[k' v'] d IH]; simpl.
  - now rewrite eqb_refl.
  - destruct (PyStr.eqb k' k) eqn:E; simpl; now rewrite E.
Qed.

Lemma get_set_other k k' v d : k <> k' -> get k' (set k v d) = get k' d.
Proof.
  intros N. induction d as [|[k0 v0] d IH]; simpl.
  - apply eqb_neq in N. now rewrite N.
  - destruct (PyStr.eqb k0 k) eqn:E; simpl.
    + apply eqb_eq in E. subst k0. apply eqb_neq in N. now rewrite N.
    + now rewrite IH.
Qed.

Lemma keys_set k v d :
  forall x, In x (keys (set k v d)) <-> x = k \/ In x (keys d).
Proof.
  intros x. induction d as [|[k0 v0] d IH]; simpl.
  - intuition.
  - destruct (PyStr.eqb k0 k) eqn:E; simpl.
    + apply eqb_eq in E. subst. intuition.
    + rewrite IH. intuition.
Qed.

Lemma NoDup_keys_set k v d : NoDup (keys d) -> NoDup (keys (set k v d)).
Proof.
  induction d as [|[k0 v0] d IH]; simpl; intros H.
  - constructor; [intros []|constructor].
  - destruct (PyStr.eqb k0 k) eqn:E; simpl; [assumption|].
    inversion H as [|? ? Hn Hd]; subst. constructor; [|now apply IH].
    intros Hin. apply keys_set in Hin as [->|Hin]; [|contradiction].
    now rewrite eqb_refl in E.
Qed.

Lemma set_fresh k v d : ~ In k (keys d) -> set k v d = d ++ [(k, v)].
Proof.
  induction d as [|[k0 v0] d IH]; simpl; intros H; [reflexivity|].
  destruct (PyStr.eqb k0 k) eqn:E.
  - apply eqb_eq in E. subst. exfalso. auto.
  - f_equal. apply IH. auto.
Qed.

Lemma fold_store_fresh l : forall d,
  NoDup (keys d ++ map fst l) -> fold_left store l d = d ++ l.
Proof.
  induction l as [|[k v] l IH]; intros d H; simpl.
  - now rewrite app_nil_r.
  - unfold store at 2; simpl.
    pose proof (NoDup_remove_2 _ _ _ H) as Hk.
    rewrite set_fresh by (intros Hin; apply Hk, in_or_app; now left).
    rewrite IH.
    + now rewrite <- app_assoc.
    + unfold keys in *. rewrite map_app; simpl. rewrite <- app_assoc; simpl.
      assumption.
Qed.

(** With pairwise distinct keys the dict holds the items as listed. *)
Lemma of_items_NoDup l : NoDup (map fst l) -> of_items l = l.
Proof.
  intros H. unfold of_items. now apply (fold_store_fresh l []).
Qed.

Lemma get_fold_store l : forall d k v,
  get k (fold_left store l d) = Some v -> In (k, v) l \/ get k d = Some v.
Proof.
  induction l as [|[k0 v0] l IH]; intros d k v H; simpl in *; [now right|].
  apply IH in H as [H|H]; [now left; right|].
  unfold store in H; simpl in H.
  destruct (list_eq_dec N.eq_dec k0 k) as [->|N].
  - rewrite get_set_same in H. injection H as ->. now left; left.
  - rewrite get_set_other in H by assumption. now right.
Qed.

(** Whatever a dict built from items holds under a key is one of the
    items. *)
Lemma get_of_items l k v : get k (of_items l) = Some v -> In (k, v) l.
Proof.
  intros H. apply get_fold_store in H as [H|H]; [assumption|discriminate].
Qed.

Lemma keys_fold_store l : forall d x,
  In x (keys (fold_left store l d)) <-> In x (keys d) \/ In x (map fst l).
Proof.
  induction l as [|[k0 v0] l IH]; intros d x; simpl; [intuition|].
  rewrite IH. unfold store at 1; simpl. rewrite keys_set. intuition.
Qed.

Lemma NoDup_keys_fold_store l : forall d,
  NoDup (keys d) -> NoDup (keys (fold_left store l d)).
Proof.
  induction l as [|kv l IH]; intros d H; simpl; [assumption|].
  apply IH. now apply NoDup_keys_set.
Qed.

Lemma get_In_keys k d : In k (keys d) -> exists v, get k d = Some v.
Proof.
  induction d as [|[k0 v0] d IH]; simpl; [intros []|].
  destruct (PyStr.eqb k0 k) eqn:E; [eauto|].
  intros [->|H]; [now rewrite eqb_refl in E|auto].
Qed.

Lemma get_In k v d : get k d = Some v -> In (k, v) d.
Proof.
  induction d as [|[k0 v0] d IH]; simpl; [discriminate|].
  destruct (PyStr.eqb k0 k) eqn:E.
  - apply eqb_eq in E. intros [= ->]. subst. now left.
  - auto.
Qed.

Lemma In_get_NoDup k v d : NoDup (keys d) -> In (k, v) d -> get k d = Some v.
Proof.
  induction d as [|[k0 v0] d IH]; simpl; [intros _ []|].
  intros H Hin. inversion H as [|? ? Hn Hd]; subst.
  destruct Hin as [[= -> ->]|Hin].
  - now rewrite eqb_refl.
  - destruct (PyStr.eqb k0 k) eqn:E; [|auto].
    apply eqb_eq in E. subst. exfalso. apply Hn.
    change k with (fst (k, v)). now apply in_map.
Qed.
End WithValues.

End DictFacts.

(* ===================================================================== *)
(** ** Facts about the short names *)

Section Enumerate.
Context {A : Type}.

Lemma nth_error_combine_seq (l : list A) : forall s i x,
  In (i, x) (combine (seq s (length l)) l) <->
  s <= i /\ nth_error l (i - s) = Some x.
Proof.
  induction l as [|a l IH]; intros s i x; simpl.
  - split; [intros []|]. intros [_ H]. now destruct (i - s).
  - rewrite IH. split.
    + intros [[= <- <-]|[Hs Hn]].
      * split; [lia|]. now rewrite Nat.sub_diag.
      * split; [lia|]. replace (i - s) with (S (i - S s)) by lia. assumption.
    + intros [Hs Hn]. destruct (i - s) as [|n] eqn:E.
      * left. injection Hn as ->. f_equal. lia.
      * right. split; [lia|]. simpl in Hn.
        replace (i - S s) with n by lia. assumption.
Qed.

Lemma In_enumerate (l : list A) i x :
  In (i, x) (enumerate l) <-> nth_error l i = Some x.
Proof.
  unfold enumerate. rewrite nth_error_combine_seq, Nat.sub_0_r.
  intuition lia.
Qed.

Lemma map_snd_enumerate (l : list A) : map snd (enumerate l) = l.
Proof.
  unfold enumerate. generalize 0.
  induction l as [|a l IH]; intros s; simpl; [reflexivity|].
  now rewrite IH.
Qed.
End Enumerate.

Lemma In_short_items (cols : list str) (c lab : str) :
  In (c, lab) (short_items cols) <->
  exists i, nth_error cols i = Some c /\ lab = short_name i c.
Proof.
  unfold short_items. rewrite in_map_iff. split.
  - intros ([i x] & [= -> <-] & Hin). apply In_enumerate in Hin. eauto.
  - intros (i & Hn & ->). exists (i, c). split; [reflexivity|].
    now apply In_enumerate.
Qed.

Lemma map_fst_short_items (cols : list str) : map fst (short_items cols) = cols.
Proof.
  unfold short_items. rewrite map_map. simpl. apply map_snd_enumerate.
Qed.

(** A short name starts with the decimal index, then a full stop. *)
Lemma short_name_shape (i : nat) (c : str) :
  exists rest, short_name i c = PyStr.of_nat (i + 1) ++ 46%N :: rest.
Proof.
  unfold short_name. destruct (60 <? length c); eexists; reflexivity.
Qed.

Lemma short_name_inj_index (i j : nat) (a b : str) :
  short_name i a = short_name j b -> i = j.
Proof.
  destruct (short_name_shape i a) as [r ->].
  destruct (short_name_shape j b) as [s ->].
  intros E.
  apply PyStrFacts.digit_prefix_unique in E;
    try apply PyStrFacts.digits_are_digits; try reflexivity.
  apply PyStrFacts.of_nat_inj in E. lia.
Qed.

(** Every ticked column has a short name, the one of some position where
    it stands in the list. *)
Lemma criterion_short_map_In (cols : list str) (c lab : str) :
  Dict.get c (criterion_short_map cols) = Some lab ->
  exists i, nth_error cols i = Some c /\ lab = short_name i c.
Proof.
  intros H. apply DictFacts.get_of_items in H. now apply In_short_items.
Qed.

Lemma criterion_short_map_defined (cols : list str) (c : str) :
  In c cols -> exists lab, Dict.get c (criterion_short_map cols) = Some lab.
Proof.
  intros H. apply DictFacts.get_In_keys.
  unfold criterion_short_map, Dict.of_items.
  apply (DictFacts.keys_fold_store (short_items cols) []). right.
  now rewrite map_fst_short_items.
Qed.

Lemma criterion_short_map_NoDup (cols : list str) :
  NoDup cols -> criterion_short_map cols = short_items cols.
Proof.
  intros H. apply DictFacts.of_items_NoDup. now rewrite map_fst_short_items.
Qed.

Lemma criterion_short_map_nth (cols : list str) (i : nat) (c : str) :
  NoDup cols -> nth_error cols i = Some c ->
  Dict.get c (criterion_short_map cols) = Some (short_name i c).
Proof.
  intros Hnd Hn. rewrite criterion_short_map_NoDup by assumption.
  apply DictFacts.In_get_NoDup.
  - unfold Dict.keys. now rewrite map_fst_short_items.
  - apply In_short_items. eauto.
Qed.

(* ===================================================================== *)
(** ** Facts about [groupby(...).size()] *)

Lemma list_sum_perm (l l' : list nat) :
  Permutation l l' -> list_sum l = list_sum l'.
Proof.
  induction 1; simpl; lia.
Qed.

Module GroupByFacts.
Section Keys.
Context {K : Type} (eqb leb : K -> K -> bool).
Hypothesis eqb_eq : forall x y, eqb x y = true <-> x = y.

Lemma key_eqb_refl x : eqb x x = true.
Proof. now apply eqb_eq. Qed.

Lemma In_unique (l : list K) x : In x (unique eqb l) <-> In x l.
Proof.
  induction l as [|a l IH]; simpl; [reflexivity|].
  rewrite filter_In, IH. split.
  - intuition.
  - intros [->|H]; [now left|].
    destruct (eqb a x) eqn:E.
    + apply eqb_eq in E. now left.
    + right. now split.
Qed.

Lemma NoDup_unique (l : list K) : NoDup (unique eqb l).
Proof.
  induction l as [|a l IH]; simpl; constructor.
  - rewrite filter_In. intros [_ H]. now rewrite key_eqb_refl in H.
  - now apply NoDup_filter.
Qed.

Lemma insert_key_perm x (l : list K) :
  Permutation (insert_key leb x l) (x :: l).
Proof.
  induction l as [|y l IH]; simpl; [reflexivity|].
  destruct (leb x y); [reflexivity|].
  rewrite IH. apply perm_swap.
Qed.

Lemma sort_keys_perm (l : list K) : Permutation (sort_keys leb l) l.
Proof.
  induction l as [|x l IH]; simpl; [reflexivity|].
  rewrite insert_key_perm. now constructor.
Qed.

Lemma groupby_keys_perm (l : list K) :
  Permutation (map fst (groupby_size eqb leb l)) (unique eqb l).
Proof.
  unfold groupby_size. rewrite map_map. simpl. rewrite map_id.
  apply sort_keys_perm.
Qed.

Lemma NoDup_groupby_keys (l : list K) :
  NoDup (map fst (groupby_size eqb leb l)).
Proof.
  eapply Permutation_NoDup; [symmetry; apply groupby_keys_perm|].
  apply NoDup_unique.
Qed.

Lemma In_groupby (l : list K) k n :
  In (k, n) (groupby_size eqb leb l) <-> In k l /\ n = group_size eqb k l.
Proof.
  unfold groupby_size. rewrite in_map_iff. split.
  - intros (x & [= -> <-] & H). split; [|reflexivity].
    apply In_unique. eapply Permutation_in; [apply sort_keys_perm|eassumption].
  - intros [H ->]. exists k. split; [reflexivity|].
    eapply Permutation_in; [symmetry; apply sort_keys_perm|].
    now apply In_unique.
Qed.

(** A group that exists has at least one row. *)
Lemma group_size_pos (l : list K) k : In k l -> 1 <= group_size eqb k l.
Proof.
  unfold group_size. induction l as [|a l IH]; simpl; [intros []|].
  intros [->|H].
  - rewrite key_eqb_refl. simpl. lia.
  - apply IH in H. destruct (eqb k a); simpl; lia.
Qed.

Lemma indicator_sum (P : K -> bool) (a : K) (ks : list K) :
  NoDup ks -> In a ks ->
  list_sum (map (fun k => if P k && eqb k a then 1 else 0) ks)
  = if P a then 1 else 0.
Proof.
  induction 1 as [|x ks Hx Hnd IH]; simpl; [intros []|].
  intros [->|Hin].
  - rewrite key_eqb_refl, andb_true_r.
    assert (list_sum (map (fun k => if P k && eqb k a then 1 else 0) ks) = 0)
      as ->; [|lia].
    clear IH Hnd. induction ks as [|y ks IH]; simpl; [reflexivity|].
    destruct (eqb y a) eqn:E.
    + apply eqb_eq in E. subst. exfalso. apply Hx. now left.
    + rewrite andb_false_r. simpl. apply IH. intros H. apply Hx. now right.
  - destruct (eqb x a) eqn:E.
    + apply eqb_eq in E. subst. contradiction.
    + rewrite andb_false_r. simpl. now apply IH.
Qed.

Lemma group_sizes_sum (P : K -> bool) (ks l : list K) :
  NoDup ks -> incl l ks ->
  list_sum (map (fun k => if P k then group_size eqb k l else 0) ks)
  = length (filter P l).
Proof.
  intros Hnd. induction l as [|a l IH]; intros Hincl.
  - simpl. clear. induction ks as [|k ks IH]; simpl; [reflexivity|].
    rewrite IH. now destruct (P k).
  - assert (In a ks) as Ha by (apply Hincl; now left).
    assert (incl l ks) as Hl by (intros x Hx; apply Hincl; now right).
    specialize (IH Hl).
    assert (list_sum (map (fun k => if P k then group_size eqb k (a :: l) else 0) ks)
            = list_sum (map (fun k => if P k && eqb k a then 1 else 0) ks)
              + list_sum (map (fun k => if P k then group_size eqb k l else 0) ks))
      as ->.
    { clear. induction ks as [|k ks IH]; simpl; [reflexivity|].
      rewrite IH. unfold group_size. simpl.
      destruct (P k), (eqb k a); simpl; lia. }
    rewrite IH, indicator_sum by assumption.
    simpl. destruct (P a); simpl; lia.
Qed.

(** The sizes of the groups whose key satisfies [P] add up to the
    number of rows whose key satisfies [P]. *)
Lemma groupby_sum (P : K -> bool) (l : list K) :
  list_sum (map snd (filter (fun kn => P (fst kn)) (groupby_size eqb leb l)))
  = length (filter P l).
Proof.
  rewrite <- (group_sizes_sum P (unique eqb l) l).
  - unfold groupby_size.
    transitivity
      (list_sum (map (fun k => if P k then group_size eqb k l else 0)
                     (sort_keys leb (unique eqb l)))).
    + generalize (sort_keys leb (unique eqb l)). intros ks.
      induction ks as [|k ks IH]; simpl; [reflexivity|].
      destruct (P k); simpl; now rewrite IH.
    + apply list_sum_perm, Permutation_map, sort_keys_perm.
  - apply NoDup_unique.
  - intros x Hx. now apply In_unique.
Qed.

(** In a frame with one row per key, the rows under a key are that
    one row. *)
Lemma filter_key_single {V : Type} (l : list (K * V)) k v :
  NoDup (map fst l) -> In (k, v) l ->
  filter (fun t => eqb (fst t) k) l = [(k, v)].
Proof.
  induction l as [|[k0 v0] l IH]; simpl; [intros _ []|].
  intros Hnd Hin. inversion Hnd as [|? ? Hn Hd]; subst.
  destruct Hin as [[= -> ->]|Hin].
  - rewrite key_eqb_refl. f_equal.
    clear IH Hnd Hd. induction l as [|[k1 v1] l IH]; simpl; [reflexivity|].
    destruct (eqb k1 k) eqn:E.
    + apply eqb_eq in E. subst. exfalso. apply Hn. now left.
    + apply IH. intros H. apply Hn. now right.
  - destruct (eqb k0 k) eqn:E.
    + apply eqb_eq in E. subst. exfalso. apply Hn.
      change k with (fst (k, v)). now apply in_map.
    + now apply IH.
Qed.
End Keys.
End GroupByFacts.

(* ===================================================================== *)
(** ** Facts about the analysis block *)

Import PyStrFacts.

Lemma key_eqb_eq (a b : key) : key_eqb a b = true <-> a = b.
Proof.
  destruct a as [[a1 a2] a3], b as [[b1 b2] b3]. unfold key_eqb.
  rewrite !andb_true_iff, !eqb_eq. split.
  - intros [[-> ->] ->]. reflexivity.
  - intros [= -> -> ->]. auto.
Qed.

(** *** The two mapping tables *)

Lemma response_to_category_items :
  response_to_category =
  [ (StronglyAgree_resp, PyStr.lit "Strongly Agree");
    (Agree_resp, PyStr.lit "Agree");
    (Disagree_resp, PyStr.lit "Disagree");
    (StronglyDisagree_resp, PyStr.lit "Strongly Disagree") ].
Proof. reflexivity. Qed.

Lemma response_to_sentiment_items :
  response_to_sentiment =
  [ (StronglyAgree_resp, PyStr.lit "Positive");
    (Agree_resp, PyStr.lit "Positive");
    (Disagree_resp, PyStr.lit "Negative");
    (StronglyDisagree_resp, PyStr.lit "Negative") ].
Proof. reflexivity. Qed.

Lemma mapped_spec (v : cell) :
  mapped v (series_map response_to_category v)
           (series_map response_to_sentiment v).
Proof.
  destruct v as [s|z|]; try (apply mapped_none; reflexivity).
  unfold series_map.
  rewrite response_to_category_items, response_to_sentiment_items.
  cbn [Dict.get].
  destruct (PyStr.eqb StronglyAgree_resp s) eqn:E1;
    [apply eqb_eq in E1; subst; constructor|].
  destruct (PyStr.eqb Agree_resp s) eqn:E2;
    [apply eqb_eq in E2; subst; constructor|].
  destruct (PyStr.eqb Disagree_resp s) eqn:E3;
    [apply eqb_eq in E3; subst; constructor|].
  destruct (PyStr.eqb StronglyDisagree_resp s) eqn:E4;
    [apply eqb_eq in E4; subst; constructor|].
  apply mapped_none. simpl.
  rewrite (eqb_sym s StronglyAgree_resp), E1, (eqb_sym s Agree_resp), E2,
    (eqb_sym s Disagree_resp), E3, (eqb_sym s StronglyDisagree_resp), E4.
  reflexivity.
Qed.

Lemma recognized_mapped (v : cell) :
  recognized v = true <->
  exists cat sent,
    series_map response_to_category v = Some cat /\
    series_map response_to_sentiment v = Some sent.
Proof.
  destruct (mapped_spec v) as [ | | | |v H];
    try (split; [intros _; eauto|intros _; reflexivity]).
  split; [congruence|intros (? & ? & [=] & _)].
Qed.

(** The sentiment is a function of the category. *)
Lemma sentiment_of_category (v w : cell) (cat : str) :
  series_map response_to_category v = Some cat ->
  series_map response_to_category w = Some cat ->
  series_map response_to_sentiment v = series_map response_to_sentiment w.
Proof.
  destruct (mapped_spec v), (mapped_spec w); intros E1 E2;
    try reflexivity; try discriminate E1; try discriminate E2;
    rewrite <- E2 in E1; discriminate E1.
Qed.

(** *** The grouping keys *)

Lemma keys_of_app (l1 l2 : list CatRow) :
  keys_of (l1 ++ l2) = keys_of l1 ++ keys_of l2.
Proof.
  induction l1 as [|r l1 IH]; simpl; [reflexivity|].
  destruct (key_of r); simpl; now rewrite IH.
Qed.

Lemma long_keys_cons (r : LongRow) (l : list LongRow) :
  long_keys (r :: l) =
  match series_map response_to_category (l_Response r),
        series_map response_to_sentiment (l_Response r) with
  | Some c, Some s => (l_Criterion r, c, s) :: long_keys l
  | _, _ => long_keys l
  end.
Proof.
  unfold long_keys, add_categories, dropna, key_of. simpl.
  destruct (mapped_spec (l_Response r)); reflexivity.
Qed.

Lemma long_keys_app (l1 l2 : list LongRow) :
  long_keys (l1 ++ l2) = long_keys l1 ++ long_keys l2.
Proof.
  unfold long_keys, add_categories, dropna.
  now rewrite map_app, filter_app, keys_of_app.
Qed.

Lemma long_keys_flat_map {A : Type} (F : A -> list LongRow) (l : list A) :
  long_keys (flat_map F l) = flat_map (fun a => long_keys (F a)) l.
Proof.
  induction l as [|a l IH]; simpl; [reflexivity|].
  now rewrite long_keys_app, IH.
Qed.

(** The criteria of the recognised rows are the criteria of their keys:
    the two [groupby] calls see the same rows. *)
Lemma criteria_of_recognized (l : list LongRow) :
  map (fun r => l_Criterion (c_long r)) (dropna (add_categories l))
  = map crit (long_keys l).
Proof.
  induction l as [|r l IH]; [reflexivity|].
  rewrite long_keys_cons. unfold add_categories, dropna in *. simpl.
  destruct (mapped_spec (l_Response r)); simpl; now rewrite IH.
Qed.

Lemma In_long_keys (l : list LongRow) (k : key) :
  In k (long_keys l) <->
  exists r, In r l /\ crit k = l_Criterion r /\
            series_map response_to_category (l_Response r) = Some (snd (fst k)) /\
            series_map response_to_sentiment (l_Response r) = Some (snd k).
Proof.
  induction l as [|r l IH]; [simpl; split; [intros []|intros (? & [] & _)]|].
  rewrite long_keys_cons. split.
  - assert (In k (long_keys l) ->
            exists r0, In r0 (r :: l) /\ crit k = l_Criterion r0 /\
              series_map response_to_category (l_Response r0) = Some (snd (fst k)) /\
              series_map response_to_sentiment (l_Response r0) = Some (snd k)) as Htl.
    { intros H. apply IH in H as (r' & Hin & H). exists r'. split; [now right|exact H]. }
    destruct (series_map response_to_category (l_Response r)) as [c|] eqn:Ec;
      [|exact Htl].
    destruct (series_map response_to_sentiment (l_Response r)) as [t|] eqn:Es;
      [|exact Htl].
    intros [<-|H]; [|now apply Htl].
    exists r. repeat split; try assumption. now left.
  - intros (r' & [<-|Hin] & Hc & Hcat & Hsent).
    + rewrite Hcat, Hsent. left. destruct k as [[c cat] sent].
      unfold crit in Hc. simpl in *. now subst.
    + assert (In k (long_keys l)) by (apply IH; eauto).
      destruct (series_map response_to_category (l_Response r));
        destruct (series_map response_to_sentiment (l_Response r));
        simpl; auto.
Qed.

(** *** When [aggregate] returns, and what *)

Lemma id_vars_incl (df : DataFrame) (cols : list str) :
  incl (id_vars_of df cols) (columns df).
Proof.
  intros x H. unfold id_vars_of in H. now apply filter_In in H.
Qed.

Lemma all_mem_incl (l cols : list str) :
  forallb (fun x => PyStr.mem x cols) l = true <-> incl l cols.
Proof.
  rewrite forallb_forall. unfold incl.
  split; intros H x Hx; apply mem_In; auto.
Qed.

Lemma melt_Ok (df : DataFrame) (ids cols : list str) :
  ~ In (PyStr.lit "Response") (columns df) ->
  incl ids (columns df) -> incl cols (columns df) ->
  melt df ids cols
  = Ok {| id_labels := ids; long_rows := melt_rows df ids cols |}.
Proof.
  intros Hr Hi Hc. unfold melt.
  apply mem_not_In in Hr. rewrite Hr.
  assert (forallb (fun l => PyStr.mem l (columns df)) (ids ++ cols) = true) as ->.
  { apply all_mem_incl. now apply incl_app. }
  reflexivity.
Qed.

Lemma melt_inv (df : DataFrame) (ids cols : list str) (lf : LongFrame) :
  melt df ids cols = Ok lf ->
  ~ In (PyStr.lit "Response") (columns df) /\ incl cols (columns df) /\
  lf = {| id_labels := ids; long_rows := melt_rows df ids cols |}.
Proof.
  unfold melt.
  destruct (PyStr.mem (PyStr.lit "Response") (columns df)) eqn:Hr;
    [discriminate|].
  destruct (forallb _ (ids ++ cols)) eqn:Hf; simpl; [|discriminate].
  intros [= <-]. apply mem_not_In in Hr. apply all_mem_incl in Hf.
  repeat split; try assumption.
  intros x Hx. apply Hf, in_or_app. now right.
Qed.

Lemma aggregate_Ok (df : DataFrame) (cols : list str) :
  cols <> [] -> incl cols (columns df) -> labels_free df cols ->
  aggregate df cols = Ok (result df cols).
Proof.
  intros Hne Hincl [Hr Hc]. unfold aggregate.
  destruct cols as [|c cols]; [congruence|].
  rewrite melt_Ok by (auto using id_vars_incl). simpl bind.
  unfold criterion_grouper. simpl id_labels.
  apply mem_not_In in Hc. rewrite Hc. reflexivity.
Qed.

Lemma aggregate_inv (df : DataFrame) (cols : list str) (res : AggregateResult) :
  aggregate df cols = Ok res ->
  cols <> [] /\ incl cols (columns df) /\ labels_free df cols /\
  res = result df cols.
Proof.
  unfold aggregate. destruct cols as [|c cols]; [discriminate|].
  destruct (melt df _ (c :: cols)) as [lf|e] eqn:Hm; [|discriminate].
  apply melt_inv in Hm as (Hr & Hincl & ->). simpl bind.
  unfold criterion_grouper. simpl id_labels.
  destruct (PyStr.mem (PyStr.lit "Criterion") _) eqn:Hc; [discriminate|].
  simpl. intros [= <-]. apply mem_not_In in Hc.
  repeat split; try assumption. discriminate.
Qed.

(** *** The rows of [df_perc] *)

Lemma flat_map_singletons {A B : Type} (f : A -> list B) (g : A -> B)
      (l : list A) :
  (forall x, In x l -> f x = [g x]) -> flat_map f l = map g l.
Proof.
  induction l as [|a l IH]; intros H; simpl; [reflexivity|].
  rewrite H by now left. simpl. f_equal. apply IH. intros x Hx. apply H. now right.
Qed.

(** Every group of line 123 meets exactly one row of [df_totals]. *)
Lemma merge_groupby (keys : list key) :
  merge (groupby_size key_eqb key_leb keys)
        (groupby_size PyStr.eqb PyStr.leb (map crit keys))
  = map (fun kn => (fst kn, snd kn,
                    group_size PyStr.eqb (crit (fst kn)) (map crit keys)))
        (groupby_size key_eqb key_leb keys).
Proof.
  unfold merge. apply flat_map_singletons. intros [k n] Hin. simpl fst. simpl snd.
  apply (GroupByFacts.In_groupby _ _ key_eqb_eq) in Hin as [Hk ->].
  change (fst (fst k)) with (crit k).
  rewrite (GroupByFacts.filter_key_single PyStr.eqb eqb_eq _ (crit k)
             (group_size PyStr.eqb (crit k) (map crit keys))).
  - reflexivity.
  - apply (GroupByFacts.NoDup_groupby_keys _ _ eqb_eq).
  - apply (GroupByFacts.In_groupby _ _ eqb_eq). split; [|reflexivity].
    now apply in_map.
Qed.

Lemma df_perc_result (df : DataFrame) (cols : list str) :
  df_perc (result df cols)
  = map (fun kn => row_for (criterion_short_map cols) (keys_for df cols) (fst kn))
        (groupby_size key_eqb key_leb (keys_for df cols)).
Proof.
  unfold result, df_counts, df_totals, recognized_rows. simpl df_perc.
  rewrite criteria_of_recognized. fold (long_keys (melt_rows df (id_vars_of df cols) cols)).
  fold (keys_for df cols). rewrite merge_groupby, map_map.
  apply map_ext_in. intros [k n] Hin.
  apply (GroupByFacts.In_groupby _ _ key_eqb_eq) in Hin as [Hk ->].
  reflexivity.
Qed.

Lemma In_df_perc (df : DataFrame) (cols : list str) (r : AggregateRow) :
  In r (df_perc (result df cols)) <->
  exists k, In k (keys_for df cols) /\
            r = row_for (criterion_short_map cols) (keys_for df cols) k.
Proof.
  rewrite df_perc_result, in_map_iff. split.
  - intros ([k n] & <- & Hin).
    apply (GroupByFacts.In_groupby _ _ key_eqb_eq) in Hin as [Hk _]. eauto.
  - intros (k & Hk & ->). exists (k, group_size key_eqb k (keys_for df cols)).
    split; [reflexivity|].
    now apply (GroupByFacts.In_groupby _ _ key_eqb_eq).
Qed.

(** *** The keys of a melted frame, column by column *)

Lemma keys_for_columns (df : DataFrame) (cols : list str) :
  keys_for df cols
  = flat_map (fun c => long_keys (map (melt_row df (id_vars_of df cols) c) (rows df)))
             cols.
Proof.
  unfold keys_for, melt_rows. apply long_keys_flat_map.
Qed.

Lemma column_keys_crit (df : DataFrame) (ids : list str) (c : str)
      (l : list (list cell)) (k : key) :
  In k (long_keys (map (melt_row df ids c) l)) -> crit k = c.
Proof.
  intros H. apply In_long_keys in H as (r & Hr & Hc & _).
  apply in_map_iff in Hr as (row & <- & _). exact Hc.
Qed.

Lemma keys_for_crit (df : DataFrame) (cols : list str) (k : key) :
  In k (keys_for df cols) -> In (crit k) cols.
Proof.
  rewrite keys_for_columns, in_flat_map. intros (c & Hc & Hk).
  apply column_keys_crit in Hk. now subst.
Qed.

Lemma key_recognized (l : list LongRow) (k : key) :
  In k (long_keys l) ->
  exists v, series_map response_to_category v = Some (snd (fst k)) /\
            series_map response_to_sentiment v = Some (snd k).
Proof.
  intros H. apply In_long_keys in H as (r & _ & _ & Hc & Hs). eauto.
Qed.

Lemma key_sentiment (l : list LongRow) (k : key) :
  In k (long_keys l) ->
  snd k = PyStr.lit "Positive" \/ snd k = PyStr.lit "Negative".
Proof.
  intros H. apply key_recognized in H as (v & Hc & Hs).
  destruct (mapped_spec v); try discriminate; injection Hs as <-; auto.
Qed.

Lemma filter_none {A : Type} (P : A -> bool) (l : list A) :
  (forall x, In x l -> P x = false) -> filter P l = [].
Proof.
  induction l as [|a l IH]; intros H; simpl; [reflexivity|].
  rewrite H by now left. apply IH. intros x Hx. apply H. now right.
Qed.

(** A test that only keys of column [c] pass sees, in the keys of all
    the columns, the keys of column [c] alone. *)
Lemma filter_one_column {K : Type} (P : K -> bool) (F : str -> list K)
      (cols : list str) (c : str) :
  NoDup cols -> In c cols ->
  (forall c' k, In k (F c') -> P k = true -> c' = c) ->
  filter P (flat_map F cols) = filter P (F c).
Proof.
  intros Hnd Hin Hp.
  assert (forall l, ~ In c l -> filter P (flat_map F l) = []) as Hout.
  { intros l Hl. apply filter_none. intros k Hk.
    apply in_flat_map in Hk as (c' & Hc' & Hk).
    destruct (P k) eqn:E; [|reflexivity].
    apply (Hp _ _ Hk) in E. subst. contradiction. }
  induction Hnd as [|a cols Ha Hnd IH]; [destruct Hin|].
  simpl. rewrite filter_app. destruct Hin as [->|Hin].
  - rewrite (Hout cols Ha). apply app_nil_r.
  - rewrite IH by assumption.
    rewrite (filter_none P (F a)); [reflexivity|].
    intros k Hk. destruct (P k) eqn:E; [|reflexivity].
    apply (Hp _ _ Hk) in E. subst. contradiction.
Qed.

Lemma length_filter_map {A B : Type} (P : B -> bool) (f : A -> B) (l : list A) :
  length (filter P (map f l)) = length (filter (fun x => P (f x)) l).
Proof.
  induction l as [|a l IH]; simpl; [reflexivity|].
  destruct (P (f a)); simpl; now rewrite IH.
Qed.

(** The size of the group of the criterion [c], as line 124 counts it. *)
Lemma total_as_filter (keys : list key) (c : str) :
  group_size PyStr.eqb c (map crit keys)
  = length (filter (fun k => PyStr.eqb (crit k) c) keys).
Proof.
  unfold group_size. rewrite length_filter_map. f_equal.
  apply filter_ext. intros k. apply eqb_sym.
Qed.

Lemma key_eqb_same_crit (c a s a' s' : str) :
  key_eqb (c, a, s) (c, a', s') = PyStr.eqb a a' && PyStr.eqb s s'.
Proof.
  unfold key_eqb. now rewrite eqb_refl.
Qed.

(** In one column, the rows of a group are the rows that answer its
    category. *)
Lemma count_in_column (df : DataFrame) (ids : list str) (c cat sent : str)
      (v0 : cell) (l : list (list cell)) :
  series_map response_to_category v0 = Some cat ->
  series_map response_to_sentiment v0 = Some sent ->
  length (filter (key_eqb (c, cat, sent)) (long_keys (map (melt_row df ids c) l)))
  = length (filter (fun row => answers cat (cell_at (columns df) row c)) l).
Proof.
  intros Hc Hs. induction l as [|row l IH]; [reflexivity|].
  cbn [map]. rewrite long_keys_cons. cbn [melt_row l_Response l_Criterion].
  cbn [filter]. unfold answers at 1.
  destruct (series_map response_to_category (cell_at (columns df) row c))
    as [cat'|] eqn:Ec.
  - destruct (series_map response_to_sentiment (cell_at (columns df) row c))
      as [sent'|] eqn:Es.
    + cbn [filter]. rewrite key_eqb_same_crit.
      destruct (PyStr.eqb cat' cat) eqn:E.
      * apply eqb_eq in E. subst cat'.
        pose proof (sentiment_of_category _ _ _ Hc Ec) as Hsame.
        rewrite Hs, Es in Hsame. injection Hsame as <-.
        rewrite !eqb_refl. cbn [andb length]. now rewrite IH.
      * rewrite (eqb_sym cat cat'), E. cbn [andb]. exact IH.
    + destruct (mapped_spec (cell_at (columns df) row c)); discriminate.
  - destruct (series_map response_to_sentiment (cell_at (columns df) row c));
      exact IH.
Qed.

(** In one column, the recognised rows are the rows that hold one of
    the four answers. *)
Lemma total_in_column (df : DataFrame) (ids : list str) (c : str)
      (l : list (list cell)) :
  length (filter (fun k => PyStr.eqb (crit k) c)
                 (long_keys (map (melt_row df ids c) l)))
  = length (filter (fun row => recognized (cell_at (columns df) row c)) l).
Proof.
  induction l as [|row l IH]; [reflexivity|].
  simpl map. rewrite long_keys_cons. simpl l_Response. simpl l_Criterion.
  simpl filter.
  destruct (mapped_spec (cell_at (columns df) row c)) as [ | | | |v Hv];
    try (simpl filter; unfold crit at 1; simpl fst; rewrite eqb_refl;
         simpl; now rewrite IH).
  rewrite Hv. exact IH.
Qed.

(** With no column ticked twice, the size of a group and the total of
    its criterion count rows of the loaded frame. *)
Lemma group_size_rows (df : DataFrame) (cols : list str) (k : key) :
  NoDup cols -> In k (keys_for df cols) ->
  group_size key_eqb k (keys_for df cols)
  = length (filter (fun row => answers (snd (fst k))
                                       (cell_at (columns df) row (crit k)))
                   (rows df)).
Proof.
  intros Hnd Hk. pose proof (keys_for_crit _ _ _ Hk) as Hc.
  pose proof (key_recognized _ _ Hk) as (v0 & Hcat & Hsent).
  unfold group_size. rewrite keys_for_columns.
  rewrite (filter_one_column _ _ cols (crit k)); try assumption.
  - destruct k as [[c cat] sent]. unfold crit in *. simpl in *.
    now apply (count_in_column df _ c cat sent v0).
  - intros c' k' Hk' E. apply key_eqb_eq in E. subst k'.
    apply column_keys_crit in Hk'. now symmetry.
Qed.

Lemma total_rows (df : DataFrame) (cols : list str) (c : str) :
  NoDup cols -> In c cols ->
  group_size PyStr.eqb c (map crit (keys_for df cols))
  = length (filter (fun row => recognized (cell_at (columns df) row c))
                   (rows df)).
Proof.
  intros Hnd Hc. rewrite total_as_filter, keys_for_columns.
  rewrite (filter_one_column _ _ cols c); try assumption.
  - apply total_in_column.
  - intros c' k' Hk' E. apply eqb_eq in E.
    apply column_keys_crit in Hk'. congruence.
Qed.

(* ===================================================================== *)
(** ** Facts about [sorted] *)

Lemma insert_sorted_perm (x : str) (l : list str) :
  Permutation (insert_sorted x l) (x :: l).
Proof.
  induction l as [|y l IH]; simpl; [reflexivity|].
  destruct (PyStr.leb x y); [reflexivity|].
  rewrite IH. apply perm_swap.
Qed.

Lemma sorted_perm (l : list str) : Permutation (sorted l) l.
Proof.
  induction l as [|x l IH]; simpl; [reflexivity|].
  rewrite insert_sorted_perm. now constructor.
Qed.

Lemma insert_sorted_sorted (x : str) (l : list str) :
  StronglySorted str_le l -> StronglySorted str_le (insert_sorted x l).
Proof.
  induction 1 as [|y l Hs IH Hall]; simpl.
  - constructor; constructor.
  - destruct (PyStr.leb x y) eqn:E.
    + constructor; [now constructor|].
      constructor; [exact E|].
      eapply Forall_impl; [|exact Hall].
      intros z Hz. unfold str_le in *. eapply leb_trans; eassumption.
    + constructor; [exact IH|].
      eapply Permutation_Forall; [symmetry; apply insert_sorted_perm|].
      constructor; [|exact Hall].
      destruct (leb_total x y) as [H|H]; [congruence|exact H].
Qed.

Lemma sorted_sorted (l : list str) : StronglySorted str_le (sorted l).
Proof.
  induction l as [|x l IH]; simpl; [constructor|].
  now apply insert_sorted_sorted.
Qed.

(** In a sorted list a strictly smaller element stands before a larger
    one. *)
Lemma sorted_before (l : list str) (a b : str) :
  StronglySorted str_le l -> In a l -> In b l -> PyStr.ltb a b = true ->
  exists l1 l2 l3, l = l1 ++ a :: l2 ++ b :: l3.
Proof.
  intros Hs Ha Hb Hlt.
  assert (a <> b) as Hne.
  { intros ->. unfold PyStr.ltb in Hlt. now rewrite compare_refl in Hlt. }
  induction Hs as [|x l Hs IH Hall]; [destruct Ha|].
  destruct Ha as [->|Ha].
  - destruct Hb as [Hb|Hb]; [congruence|].
    apply in_split in Hb as (l2 & l3 & ->). now exists [], l2, l3.
  - destruct Hb as [->|Hb].
    + exfalso. rewrite Forall_forall in Hall. apply Hall in Ha.
      apply ltb_not_leb in Hlt. unfold str_le in Ha. congruence.
    + destruct (IH Ha Hb) as (l1 & l2 & l3 & ->). now exists (x :: l1), l2, l3.
Qed.

(* ===================================================================== *)
(** ** Facts about the labels of the result *)

Lemma map_criterion_label (cols : list str) (c : str) :
  In c cols ->
  exists i, nth_error cols i = Some c /\
            map_criterion (criterion_short_map cols) c = Str (short_name i c).
Proof.
  intros H. destruct (criterion_short_map_defined cols c H) as [lab Hlab].
  unfold map_criterion. rewrite Hlab.
  apply criterion_short_map_In in Hlab as (i & Hi & ->). eauto.
Qed.

(** Two ticked columns with the same short name are the same column. *)
Lemma map_criterion_inj (cols : list str) (a b : str) :
  In a cols -> In b cols ->
  map_criterion (criterion_short_map cols) a
  = map_criterion (criterion_short_map cols) b ->
  a = b.
Proof.
  intros Ha Hb.
  destruct (map_criterion_label cols a Ha) as (i & Hi & ->).
  destruct (map_criterion_label cols b Hb) as (j & Hj & ->).
  intros [= E]. apply short_name_inj_index in E. subst j. congruence.
Qed.

Lemma row_for_fields (m : Dict.dict str) (keys : list key) (k : key) :
  Criterion (row_for m keys k) = map_criterion m (crit k) /\
  ResponseCategory (row_for m keys k) = snd (fst k) /\
  Sentiment (row_for m keys k) = snd k /\
  Count (row_for m keys k) = group_size key_eqb k keys /\
  Total (row_for m keys k) = group_size PyStr.eqb (crit k) (map crit keys) /\
  Percentage (row_for m keys k)
  = true_div (group_size key_eqb k keys)
             (group_size PyStr.eqb (crit k) (map crit keys)) /\
  DivergingPercentage (row_for m keys k)
  = diverging (snd k) (Percentage (row_for m keys k)).
Proof.
  destruct k as [[c cat] sent]. unfold row_for, perc_row, crit. simpl.
  repeat split.
Qed.

(** The rows under the label of a criterion are the rows of its groups. *)
Lemma criterion_is_row_for (cols : list str) (keys : list key) (k k' : key)
      (lab : str) :
  In (crit k) cols -> In (crit k') cols ->
  map_criterion (criterion_short_map cols) (crit k) = Str lab ->
  criterion_is lab (row_for (criterion_short_map cols) keys k')
  = PyStr.eqb (crit k') (crit k).
Proof.
  intros Hk Hk' Hlab. unfold criterion_is.
  destruct (row_for_fields (criterion_short_map cols) keys k') as (-> & _).
  destruct (map_criterion_label cols (crit k') Hk') as (j & Hj & Hlab').
  rewrite Hlab'.
  destruct (PyStr.eqb (crit k') (crit k)) eqn:E.
  - apply eqb_eq in E. apply eqb_eq.
    assert (Str (short_name j (crit k')) = Str lab) as [= H]
        by (rewrite <- Hlab', <- Hlab; now rewrite E).
    exact H.
  - apply eqb_neq. intros E'. apply eqb_neq in E. apply E.
    apply (map_criterion_inj cols); try assumption.
    rewrite Hlab, Hlab'. now f_equal.
Qed.

(* ===================================================================== *)
(** ** Facts about the form *)

Section FormFacts.
Variable ui : str -> bool -> bool.

Lemma checkbox_states_items (all_columns : list str) :
  checkbox_states ui all_columns
  = Dict.of_items (map (fun col => (col, ui col (pre_check col))) all_columns).
Proof.
  unfold checkbox_states, Dict.of_items. generalize (@nil (str * bool)).
  induction all_columns as [|c l IH]; intros d; simpl; [reflexivity|].
  now rewrite IH.
Qed.

Lemma NoDup_keys_checkbox_states (all_columns : list str) :
  NoDup (Dict.keys (checkbox_states ui all_columns)).
Proof.
  rewrite checkbox_states_items. unfold Dict.of_items.
  apply DictFacts.NoDup_keys_fold_store. constructor.
Qed.

(** A column is among [feedback_cols] only if it is a column of the
    file and its box is ticked. *)
Lemma feedback_cols_ticked (all_columns : list str) (c : str) :
  In c (feedback_cols_of (checkbox_states ui all_columns)) ->
  In c all_columns /\ ui c (pre_check c) = true.
Proof.
  unfold feedback_cols_of, Dict.items. rewrite in_map_iff.
  intros ([k v] & <- & Hin). apply filter_In in Hin as [Hin Hv].
  simpl in Hv. subst v. simpl.
  apply DictFacts.In_get_NoDup in Hin; [|apply NoDup_keys_checkbox_states].
  rewrite checkbox_states_items in Hin.
  apply DictFacts.get_of_items, in_map_iff in Hin as (col & [= -> E] & Hcol).
  auto.
Qed.

Lemma NoDup_map_fst_filter {A B : Type} (f : A * B -> bool) (l : list (A * B)) :
  NoDup (map fst l) -> NoDup (map fst (filter f l)).
Proof.
  induction l as [|x l IH]; simpl; intros H; [constructor|].
  inversion H as [|? ? Hn Hd]; subst.
  destruct (f x); simpl; [|auto].
  constructor; [|auto].
  intros Hin. apply Hn. apply in_map_iff in Hin as (y & E & Hy).
  apply filter_In in Hy as [Hy _]. apply in_map_iff. eauto.
Qed.

(** What the form hands to the analysis is a selection of the frame. *)
Lemma form_selection (df : DataFrame) :
  selection df (feedback_cols_of (checkbox_states ui (columns df))).
Proof.
  split.
  - unfold feedback_cols_of, Dict.items. apply NoDup_map_fst_filter.
    apply NoDup_keys_checkbox_states.
  - intros c Hc. now apply feedback_cols_ticked in Hc.
Qed.
End FormFacts.

(* ===================================================================== *)
(** ** The claims about the short names *)

Lemma of_nat_10 : PyStr.of_nat 10 = [49; 48]%N.
Proof. reflexivity. Qed.

Lemma of_nat_2 : PyStr.of_nat 2 = [50]%N.
Proof. reflexivity. Qed.

Lemma values_short_items (cols : list str) :
  Dict.values (short_items cols)
  = map (fun ic => short_name (fst ic) (snd ic)) (enumerate cols).
Proof.
  unfold Dict.values, short_items. now rewrite map_map.
Qed.

(** C6: the ticked column at the 1-based position [p] is shown as the
    decimal [p], a full stop, a space, and then its name when the name
    has at most 60 characters, its first 60 characters followed by three
    full stops otherwise; a ticked first column whose name has 70
    characters is shown as ["1. "], its first 60 characters, ["..."]. *)
Theorem short_label_format :
  (forall (cols : list str) (p : nat) (c : str),
      NoDup cols -> 1 <= p -> nth_error cols (p - 1) = Some c ->
      Dict.get c (criterion_short_map cols)
      = Some (PyStr.of_nat p ++ PyStr.lit ". " ++
              (if length c <=? 60 then c
               else firstn 60 c ++ PyStr.lit "..."))) /\
  (forall (c : str) (rest : list str),
      NoDup (c :: rest) -> length c = 70 ->
      Dict.get c (criterion_short_map (c :: rest))
      = Some (PyStr.lit "1. " ++ firstn 60 c ++ PyStr.lit "...")).
Proof.
  split.
  - intros cols p c Hnd Hp Hn.
    rewrite (criterion_short_map_nth cols (p - 1) c Hnd Hn).
    unfold short_name. replace (p - 1 + 1) with p by lia.
    destruct (Nat.ltb_spec 60 (length c)) as [H|H];
      destruct (Nat.leb_spec (length c) 60) as [H'|H']; try lia; reflexivity.
  - intros c rest Hnd Hlen.
    rewrite (criterion_short_map_nth (c :: rest) 0 c Hnd eq_refl).
    unfold short_name. rewrite Hlen. reflexivity.
Qed.

Lemma NoDup_eleven_questions : NoDup eleven_questions.
Proof.
  apply (NoDup_nth_error eleven_questions). intros i j Hi.
  simpl in Hi.
  do 11 (destruct i as [|i]; [do 11 (destruct j as [|j]; [reflexivity || discriminate|]); now destruct j|]).
  simpl in Hi. lia.
Qed.

Lemma short_label_format_witness :
  (NoDup eleven_questions /\ 1 <= 3 /\
   nth_error eleven_questions (3 - 1) = Some (PyStr.lit "Homework") /\
   Dict.get (PyStr.lit "Homework") (criterion_short_map eleven_questions)
   = Some (PyStr.lit "3. Homework")) /\
  (NoDup [name70; PyStr.lit "Pace"] /\ length name70 = 70 /\
   Dict.get name70 (criterion_short_map [name70; PyStr.lit "Pace"])
   = Some (PyStr.lit "1. The teacher explains the aims of every lesson clearly and on...")).
Proof.
  split.
  - split; [exact NoDup_eleven_questions|].
    split; [lia|]. split; [reflexivity|].
    exact (proj1 short_label_format eleven_questions 3 (PyStr.lit "Homework")
                 NoDup_eleven_questions (le_S _ _ (le_S _ _ (le_n 1))) eq_refl).
  - assert (NoDup [name70; PyStr.lit "Pace"]) as Hnd.
    { constructor; [|constructor; [intros []|constructor]].
      intros [H|[]]. discriminate H. }
    split; [exact Hnd|]. split; [reflexivity|].
    exact (proj2 short_label_format name70 [PyStr.lit "Pace"] Hnd eq_refl).
Defined.

(** C10: two different ticked columns never get the same short name,
    also when their names agree on the first 60 characters; hence the
    label of a row of the result names exactly one ticked column. *)
Theorem short_labels_injective :
  (forall (cols : list str) (a b : str),
      In a cols -> In b cols -> a <> b ->
      exists la lb,
        Dict.get a (criterion_short_map cols) = Some la /\
        Dict.get b (criterion_short_map cols) = Some lb /\
        la <> lb) /\
  (forall (df : DataFrame) (cols : list str) (res : AggregateResult),
      aggregate df cols = Ok res ->
      forall r, In r (df_perc res) ->
        exists! c, In c cols /\
                   Criterion r = map_criterion (criterion_short_map cols) c).
Proof.
  split.
  - intros cols a b Ha Hb Hne.
    destruct (criterion_short_map_defined cols a Ha) as [la Hla].
    destruct (criterion_short_map_defined cols b Hb) as [lb Hlb].
    exists la, lb. repeat split; try assumption.
    intros ->. apply Hne. apply (map_criterion_inj cols); try assumption.
    unfold map_criterion. now rewrite Hla, Hlb.
  - intros df cols res Hagg r Hr.
    apply aggregate_inv in Hagg as (_ & _ & _ & ->).
    apply In_df_perc in Hr as (k & Hk & ->).
    pose proof (keys_for_crit _ _ _ Hk) as Hc.
    destruct (row_for_fields (criterion_short_map cols) (keys_for df cols) k)
      as (Hcrit & _).
    exists (crit k). split; [now split|].
    intros c' [Hc' E]. rewrite Hcrit in E.
    now apply (map_criterion_inj cols).
Qed.

Lemma aggregate_class_survey :
  aggregate class_survey pace_and_clarity
  = Ok (result class_survey pace_and_clarity).
Proof. reflexivity. Qed.

Lemma short_labels_injective_witness :
  (In name70 [name70; name70_twin] /\ In name70_twin [name70; name70_twin] /\
   name70 <> name70_twin /\
   exists la lb,
     Dict.get name70 (criterion_short_map [name70; name70_twin]) = Some la /\
     Dict.get name70_twin (criterion_short_map [name70; name70_twin]) = Some lb /\
     la <> lb) /\
  (aggregate class_survey pace_and_clarity
   = Ok (result class_survey pace_and_clarity) /\
   forall r, In r (df_perc (result class_survey pace_and_clarity)) ->
     exists! c, In c pace_and_clarity /\
                Criterion r = map_criterion (criterion_short_map pace_and_clarity) c).
Proof.
  assert (name70 <> name70_twin) as Hne by discriminate.
  split.
  - split; [now left|]. split; [now right; left|]. split; [exact Hne|].
    exact (proj1 short_labels_injective [name70; name70_twin] name70 name70_twin
                 (or_introl eq_refl) (or_intror (or_introl eq_refl)) Hne).
  - split; [exact aggregate_class_survey|].
    exact (proj2 short_labels_injective class_survey pace_and_clarity
                 (result class_survey pace_and_clarity) aggregate_class_survey).
Defined.

(** C7: the numbers of the short names follow the order in which the
    ticked columns are listed, whatever their names; the list handed to
    the chart as the order of the bars holds the same short names sorted
    as strings, so with ten or more ticked columns the name that starts
    with ["10. "] stands before the one that starts with ["2. "]. *)
Theorem labels_numbered_in_order_sorted_as_text :
  (forall cols : list str,
      NoDup cols ->
      Dict.values (criterion_short_map cols)
      = map (fun ic => short_name (fst ic) (snd ic)) (enumerate cols)) /\
  (forall cols : list str,
      Permutation (sorted_criteria cols) (Dict.values (criterion_short_map cols)) /\
      StronglySorted str_le (sorted_criteria cols)) /\
  (forall (cols : list str) (x y : str),
      NoDup cols -> nth_error cols 9 = Some x -> nth_error cols 1 = Some y ->
      (exists tx ty,
          short_name 9 x = PyStr.lit "10. " ++ tx /\
          short_name 1 y = PyStr.lit "2. " ++ ty) /\
      exists l1 l2 l3,
        sorted_criteria cols = l1 ++ short_name 9 x :: l2 ++ short_name 1 y :: l3).
Proof.
  split; [|split].
  - intros cols Hnd. rewrite criterion_short_map_NoDup by assumption.
    apply values_short_items.
  - intros cols. split; [apply sorted_perm|apply sorted_sorted].
  - intros cols x y Hnd Hx Hy.
    assert (exists tx, short_name 9 x = PyStr.lit "10. " ++ tx) as [tx Htx].
    { unfold short_name. destruct (60 <? length x); eexists; reflexivity. }
    assert (exists ty, short_name 1 y = PyStr.lit "2. " ++ ty) as [ty Hty].
    { unfold short_name. destruct (60 <? length y); eexists; reflexivity. }
    split; [eauto|].
    apply sorted_before.
    + apply sorted_sorted.
    + eapply Permutation_in; [symmetry; apply sorted_perm|].
      rewrite criterion_short_map_NoDup, values_short_items by assumption.
      apply in_map_iff. exists (9, x). split; [reflexivity|].
      now apply In_enumerate.
    + eapply Permutation_in; [symmetry; apply sorted_perm|].
      rewrite criterion_short_map_NoDup, values_short_items by assumption.
      apply in_map_iff. exists (1, y). split; [reflexivity|].
      now apply In_enumerate.
    + rewrite Htx, Hty. reflexivity.
Qed.

Lemma labels_numbered_in_order_sorted_as_text_witness :
  NoDup eleven_questions /\
  nth_error eleven_questions 9 = Some (PyStr.lit "Workload") /\
  nth_error eleven_questions 1 = Some (PyStr.lit "Clarity") /\
  Dict.values (criterion_short_map eleven_questions)
  = map (fun ic => short_name (fst ic) (snd ic)) (enumerate eleven_questions) /\
  exists l1 l2 l3,
    sorted_criteria eleven_questions
    = l1 ++ short_name 9 (PyStr.lit "Workload")
         :: l2 ++ short_name 1 (PyStr.lit "Clarity") :: l3.
Proof.
  split; [exact NoDup_eleven_questions|].
  split; [reflexivity|]. split; [reflexivity|]. split.
  - exact (proj1 labels_numbered_in_order_sorted_as_text eleven_questions
                 NoDup_eleven_questions).
  - exact (proj2 (proj2 (proj2 labels_numbered_in_order_sorted_as_text)
                        eleven_questions (PyStr.lit "Workload") (PyStr.lit "Clarity")
                        NoDup_eleven_questions eq_refl eq_refl)).
Defined.

(** An instance: the order of the bars for the eleven questions. *)
Example sorted_criteria_eleven :
  sorted_criteria eleven_questions
  = map PyStr.lit
        [ "1. Pace"; "10. Workload"; "11. Overall"; "2. Clarity"; "3. Homework";
          "4. Feedback"; "5. Respect"; "6. Materials"; "7. Punctuality";
          "8. Exams"; "9. Support" ]%string.
Proof. reflexivity. Qed.

(* ===================================================================== *)
(** ** The claims about the outcome of the analysis *)

(** C4: with no column ticked the analysis stops with the selection
    error, whatever the frame holds; nothing is computed. *)
Theorem empty_selection_fails :
  (forall df : DataFrame, aggregate df [] = Raise SelectionError) /\
  (forall (ui : str -> bool -> bool) (df : DataFrame),
      (forall col, In col (columns df) -> ui col (pre_check col) = false) ->
      on_submit ui df = Raise SelectionError).
Proof.
  split; [reflexivity|].
  intros ui df Hnone. unfold on_submit.
  destruct (feedback_cols_of (checkbox_states ui (columns df))) as [|c l] eqn:E;
    [reflexivity|].
  assert (In c (feedback_cols_of (checkbox_states ui (columns df)))) as Hc
      by (rewrite E; now left).
  apply feedback_cols_ticked in Hc as [Hin Ht].
  rewrite (Hnone c Hin) in Ht. discriminate.
Qed.

Lemma empty_selection_fails_witness :
  aggregate class_survey [] = Raise SelectionError /\
  (forall col, In col (columns class_survey) -> none_ticked col (pre_check col) = false) /\
  on_submit none_ticked class_survey = Raise SelectionError.
Proof.
  split; [exact (proj1 empty_selection_fails class_survey)|].
  split; [reflexivity|].
  exact (proj2 empty_selection_fails none_ticked class_survey
               (fun col _ => eq_refl)).
Defined.

(** *** Counts, totals and percentages *)

Lemma sum_counts_filter (m : Dict.dict str) (keys : list key)
      (Q : AggregateRow -> bool) (P : key -> bool) (G : list (key * nat)) :
  (forall kn, In kn G ->
              Q (row_for m keys (fst kn)) = P (fst kn) /\
              Count (row_for m keys (fst kn)) = snd kn) ->
  list_sum (map Count (filter Q (map (fun kn => row_for m keys (fst kn)) G)))
  = list_sum (map snd (filter (fun kn => P (fst kn)) G)).
Proof.
  induction G as [|kn G IH]; intros H; [reflexivity|].
  cbn [map filter]. destruct (H kn (or_introl eq_refl)) as [-> Hc].
  assert (forall x, In x G ->
                    Q (row_for m keys (fst x)) = P (fst x) /\
                    Count (row_for m keys (fst x)) = snd x) as H'
      by (intros x Hx; apply H; now right).
  destruct (P (fst kn)); cbn [map]; [|exact (IH H')].
  specialize (IH H'). unfold list_sum in *. cbn [fold_right]. congruence.
Qed.

Lemma length_filter_le {A : Type} (P Q : A -> bool) (l : list A) :
  (forall x, P x = true -> Q x = true) ->
  length (filter P l) <= length (filter Q l).
Proof.
  intros H. induction l as [|a l IH]; simpl; [lia|].
  destruct (P a) eqn:E.
  - rewrite (H a E). simpl. lia.
  - destruct (Q a); simpl; lia.
Qed.

Lemma count_le_total (keys : list key) (k : key) :
  group_size key_eqb k keys <= group_size PyStr.eqb (crit k) (map crit keys).
Proof.
  rewrite total_as_filter. unfold group_size. apply length_filter_le.
  intros k' E. apply key_eqb_eq in E. subst. apply eqb_refl.
Qed.

(** C1: in the result, the counts of the rows shown under one label add
    up to the total those rows carry, and no total exceeds the number of
    rows of the loaded frame (which is what the result reports as the
    number of responses). *)
Theorem counts_sum_to_total :
  forall (df : DataFrame) (cols : list str) (res : AggregateResult),
    NoDup cols -> aggregate df cols = Ok res ->
    total_responses res = len df /\
    forall r, In r (df_perc res) ->
      exists lab,
        Criterion r = Str lab /\
        list_sum (map Count (filter (criterion_is lab) (df_perc res))) = Total r /\
        Total r <= total_responses res.
Proof.
  intros df cols res Hnd Hagg.
  apply aggregate_inv in Hagg as (_ & _ & _ & ->).
  split; [reflexivity|]. intros r Hr.
  apply In_df_perc in Hr as (k & Hk & ->).
  pose proof (keys_for_crit _ _ _ Hk) as Hc.
  destruct (map_criterion_label cols (crit k) Hc) as (i & Hi & Hlab).
  destruct (row_for_fields (criterion_short_map cols) (keys_for df cols) k)
    as (Hcrit & _ & _ & _ & Htot & _).
  exists (short_name i (crit k)). split; [congruence|]. split.
  - rewrite df_perc_result, Htot.
    rewrite (sum_counts_filter _ _ _ (fun k' => PyStr.eqb (crit k') (crit k))).
    + transitivity
        (length (filter (fun k' => PyStr.eqb (crit k') (crit k)) (keys_for df cols))).
      * apply (GroupByFacts.groupby_sum key_eqb key_leb key_eqb_eq
                 (fun k' => PyStr.eqb (crit k') (crit k))).
      * symmetry. apply total_as_filter.
    + intros [k' n] Hin. simpl fst. simpl snd.
      apply (GroupByFacts.In_groupby _ _ key_eqb_eq) in Hin as [Hk' ->].
      split.
      * apply criterion_is_row_for; try assumption.
        now apply (keys_for_crit df).
      * now destruct (row_for_fields (criterion_short_map cols) (keys_for df cols) k')
          as (_ & _ & _ & -> & _).
  - rewrite Htot. simpl total_responses.
    rewrite (total_rows df cols (crit k) Hnd Hc).
    apply filter_length_le.
Qed.

Lemma NoDup_pace_and_clarity : NoDup pace_and_clarity.
Proof.
  constructor; [intros [H|[]]; discriminate H|].
  constructor; [intros []|constructor].
Qed.

Lemma counts_sum_to_total_witness :
  NoDup pace_and_clarity /\
  aggregate class_survey pace_and_clarity
  = Ok (result class_survey pace_and_clarity) /\
  total_responses (result class_survey pace_and_clarity) = len class_survey /\
  forall r, In r (df_perc (result class_survey pace_and_clarity)) ->
    exists lab,
      Criterion r = Str lab /\
      list_sum (map Count (filter (criterion_is lab)
                                  (df_perc (result class_survey pace_and_clarity))))
      = Total r /\
      Total r <= total_responses (result class_survey pace_and_clarity).
Proof.
  split; [exact NoDup_pace_and_clarity|].
  split; [exact aggregate_class_survey|].
  exact (counts_sum_to_total class_survey pace_and_clarity
           (result class_survey pace_and_clarity)
           NoDup_pace_and_clarity aggregate_class_survey).
Defined.

(** The totals of that frame stay below its four rows: three students
    answered the first question, none the second. *)
Example df_perc_class_survey :
  map (fun r => (Criterion r, ResponseCategory r, Count r, Total r))
      (df_perc (result class_survey pace_and_clarity))
  = [ (Str (PyStr.lit "1. Pace"), PyStr.lit "Agree", 2, 3);
      (Str (PyStr.lit "1. Pace"), PyStr.lit "Strongly Disagree", 1, 3) ].
Proof. reflexivity. Qed.

Lemma inject_nat_pos (n : nat) : 1 <= n -> (0 < inject_Z (Z.of_nat n))%Q.
Proof.
  intros H. unfold Qlt. simpl. lia.
Qed.

Lemma true_div_bounds (n t : nat) :
  1 <= n -> n <= t -> (0 < true_div n t)%Q /\ (true_div n t <= 1)%Q.
Proof.
  intros Hn Ht. unfold true_div.
  assert (0 < inject_Z (Z.of_nat t))%Q as Hpos by (apply inject_nat_pos; lia).
  split.
  - apply Qlt_shift_div_l; [exact Hpos|].
    rewrite Qmult_0_l. now apply inject_nat_pos.
  - apply Qle_shift_div_r; [exact Hpos|].
    rewrite Qmult_1_l. rewrite <- Zle_Qle. lia.
Qed.

Lemma diverging_positive (p : Q) : diverging (PyStr.lit "Positive") p = p.
Proof. reflexivity. Qed.

Lemma diverging_negative (p : Q) : (diverging (PyStr.lit "Negative") p == - p)%Q.
Proof.
  unfold diverging. simpl PyStr.eqb. cbv iota. ring.
Qed.

(** C2: every row of the result has a percentage above 0 and at most 1;
    its diverging percentage is that percentage when the sentiment is
    positive and its opposite when it is negative, so it lies between -1
    and 1 with the sign of the sentiment.  For three answers to one
    question, "strongly agree", "disagree", "strongly agree", the total
    is 3 and the rows are (Disagree, 1, 1/3, -1/3) and (Strongly Agree,
    2, 2/3, 2/3). *)
Theorem percentage_and_diverging_range :
  (forall (df : DataFrame) (cols : list str) (res : AggregateResult),
      aggregate df cols = Ok res ->
      forall r, In r (df_perc res) ->
        (0 < Percentage r)%Q /\ (Percentage r <= 1)%Q /\
        ((Sentiment r = PyStr.lit "Positive" /\
          (DivergingPercentage r == Percentage r)%Q /\
          (0 < DivergingPercentage r)%Q) \/
         (Sentiment r = PyStr.lit "Negative" /\
          (DivergingPercentage r == - Percentage r)%Q /\
          (DivergingPercentage r < 0)%Q)) /\
        (- (1) <= DivergingPercentage r)%Q /\ (DivergingPercentage r <= 1)%Q) /\
  aggregate three_answers [PyStr.lit "Q1"]
  = Ok {| total_responses := 3;
          df_perc :=
            [ {| Criterion := Str (PyStr.lit "1. Q1");
                 ResponseCategory := PyStr.lit "Disagree";
                 Sentiment := PyStr.lit "Negative";
                 Count := 1; Total := 3;
                 Percentage := 1 # 3;
                 DivergingPercentage := - 1 # 3 |};
              {| Criterion := Str (PyStr.lit "1. Q1");
                 ResponseCategory := PyStr.lit "Strongly Agree";
                 Sentiment := PyStr.lit "Positive";
                 Count := 2; Total := 3;
                 Percentage := 2 # 3;
                 DivergingPercentage := 2 # 3 |} ];
          sorted_labels := [PyStr.lit "1. Q1"] |}.
Proof.
  split; [|reflexivity].
  intros df cols res Hagg r Hr.
  apply aggregate_inv in Hagg as (_ & _ & _ & ->).
  apply In_df_perc in Hr as (k & Hk & ->).
  destruct (row_for_fields (criterion_short_map cols) (keys_for df cols) k)
    as (_ & _ & Hsent & _ & _ & Hperc & Hdiv).
  assert (1 <= group_size key_eqb k (keys_for df cols)) as Hpos
      by now apply (GroupByFacts.group_size_pos key_eqb key_eqb_eq).
  pose proof (count_le_total (keys_for df cols) k) as Hle.
  destruct (true_div_bounds _ _ Hpos Hle) as [H0 H1].
  rewrite <- Hperc in H0, H1.
  rewrite Hdiv, Hsent.
  set (p := Percentage (row_for (criterion_short_map cols) (keys_for df cols) k)) in *.
  split; [exact H0|]. split; [exact H1|].
  destruct (key_sentiment _ _ Hk) as [E|E]; rewrite E.
  - rewrite diverging_positive. split; [left; repeat split; auto; reflexivity|].
    split; [|exact H1].
    apply Qle_trans with 0%Q; [discriminate|now apply Qlt_le_weak].
  - pose proof (diverging_negative p) as Hd.
    split; [right; repeat split; auto|].
    + rewrite Hd. rewrite <- (Qopp_involutive 0).
      now apply Qopp_lt_compat in H0.
    + rewrite Hd. split.
      * now apply Qopp_le_compat.
      * apply Qle_trans with 0%Q; [|discriminate].
        apply Qlt_le_weak. change 0%Q with (- 0)%Q. now apply Qopp_lt_compat.
Qed.

Lemma percentage_and_diverging_range_witness :
  aggregate class_survey pace_and_clarity
  = Ok (result class_survey pace_and_clarity) /\
  forall r, In r (df_perc (result class_survey pace_and_clarity)) ->
    (0 < Percentage r)%Q /\ (Percentage r <= 1)%Q /\
    ((Sentiment r = PyStr.lit "Positive" /\
      (DivergingPercentage r == Percentage r)%Q /\
      (0 < DivergingPercentage r)%Q) \/
     (Sentiment r = PyStr.lit "Negative" /\
      (DivergingPercentage r == - Percentage r)%Q /\
      (DivergingPercentage r < 0)%Q)) /\
    (- (1) <= DivergingPercentage r)%Q /\ (DivergingPercentage r <= 1)%Q.
Proof.
  split; [exact aggregate_class_survey|].
  exact (proj1 percentage_and_diverging_range class_survey pace_and_clarity
               (result class_survey pace_and_clarity) aggregate_class_survey).
Defined.

(** *** Every way the analysis can end *)

Lemma aggregate_cases (df : DataFrame) (cols : list str) :
  aggregate df cols
  = match cols with
    | [] => Raise SelectionError
    | _ :: _ =>
        if PyStr.mem (PyStr.lit "Response") (columns df) then Raise ValueError
        else if negb (forallb (fun l => PyStr.mem l (columns df))
                              (id_vars_of df cols ++ cols))
        then Raise KeyError
        else if PyStr.mem (PyStr.lit "Criterion") (id_vars_of df cols)
        then Raise ValueError
        else Ok (result df cols)
    end.
Proof.
  destruct cols as [|c cols]; [reflexivity|].
  unfold aggregate, melt.
  destruct (PyStr.mem (PyStr.lit "Response") (columns df)); [reflexivity|].
  destruct (forallb _ _); simpl; [|reflexivity].
  unfold criterion_grouper.
  destruct (PyStr.mem (PyStr.lit "Criterion") _); reflexivity.
Qed.

(** Whether the analysis raises, and what, is decided by the labels
    alone. *)
Lemma raise_independent_of_cells (labels : list str)
      (rows1 rows2 : list (list cell)) (cols : list str) (e : exn) :
  aggregate {| columns := labels; rows := rows1 |} cols = Raise e ->
  aggregate {| columns := labels; rows := rows2 |} cols = Raise e.
Proof.
  rewrite !aggregate_cases. destruct cols as [|c cols]; [trivial|].
  unfold id_vars_of. simpl columns.
  destruct (PyStr.mem (PyStr.lit "Response") labels); [trivial|].
  destruct (forallb _ _); simpl; [|trivial].
  destruct (PyStr.mem (PyStr.lit "Criterion") _); [trivial|discriminate].
Qed.

Lemma answers_recognized (cat : str) (v : cell) :
  answers cat v = true -> recognized v = true.
Proof.
  unfold answers. intros H. apply recognized_mapped.
  destruct (mapped_spec v); try discriminate H; eauto.
Qed.

(** C5: a cell that is not one of the four answers, a blank included, is
    mapped to a missing category and a missing sentiment and answers no
    category; the counts and totals of the result count the cells of the
    ticked column that hold one of the four answers, and nothing else;
    the category of every row of the result is the category of one of
    the four answers; and whether the analysis raises does not depend on
    the cells at all. *)
Theorem unrecognized_values_dropped :
  (forall v : cell,
      recognized v = false ->
      series_map response_to_category v = None /\
      series_map response_to_sentiment v = None /\
      forall cat, answers cat v = false) /\
  (forall (df : DataFrame) (cols : list str) (res : AggregateResult),
      NoDup cols -> aggregate df cols = Ok res ->
      forall r, In r (df_perc res) ->
        exists c,
          In c cols /\
          Criterion r = map_criterion (criterion_short_map cols) c /\
          (exists v, recognized v = true /\
                     series_map response_to_category v = Some (ResponseCategory r)) /\
          Count r = length (filter (answers (ResponseCategory r)) (column df c)) /\
          Total r = length (filter recognized (column df c))) /\
  (forall (labels : list str) (rows1 rows2 : list (list cell)) (cols : list str)
          (e : exn),
      aggregate {| columns := labels; rows := rows1 |} cols = Raise e ->
      aggregate {| columns := labels; rows := rows2 |} cols = Raise e).
Proof.
  split; [|split].
  - intros v Hv.
    destruct (mapped_spec v) as [ | | | |v _]; try discriminate Hv.
    repeat split. intros cat.
    destruct (answers cat v) eqn:E; [|reflexivity].
    apply answers_recognized in E. congruence.
  - intros df cols res Hnd Hagg r Hr.
    apply aggregate_inv in Hagg as (_ & _ & _ & ->).
    apply In_df_perc in Hr as (k & Hk & ->).
    pose proof (keys_for_crit _ _ _ Hk) as Hc.
    destruct (row_for_fields (criterion_short_map cols) (keys_for df cols) k)
      as (Hcrit & Hcat & _ & Hcount & Htot & _).
    exists (crit k). split; [exact Hc|]. split; [exact Hcrit|]. split.
    + destruct (key_recognized _ _ Hk) as (v & Hv & Hs).
      exists v. split; [apply recognized_mapped; eauto|]. now rewrite Hcat.
    + unfold column. rewrite !length_filter_map. split.
      * rewrite Hcount, Hcat. now apply group_size_rows.
      * rewrite Htot. now apply total_rows.
  - exact raise_independent_of_cells.
Qed.

Lemma unrecognized_values_dropped_witness :
  (recognized (Str (PyStr.lit "N/A")) = false /\
   series_map response_to_category (Str (PyStr.lit "N/A")) = None /\
   series_map response_to_sentiment (Str (PyStr.lit "N/A")) = None /\
   forall cat, answers cat (Str (PyStr.lit "N/A")) = false) /\
  (recognized NaN = false /\
   series_map response_to_category NaN = None /\
   series_map response_to_sentiment NaN = None /\
   forall cat, answers cat NaN = false) /\
  (NoDup pace_and_clarity /\
   aggregate class_survey pace_and_clarity
   = Ok (result class_survey pace_and_clarity) /\
   forall r, In r (df_perc (result class_survey pace_and_clarity)) ->
     exists c,
       In c pace_and_clarity /\
       Criterion r = map_criterion (criterion_short_map pace_and_clarity) c /\
       (exists v, recognized v = true /\
                  series_map response_to_category v = Some (ResponseCategory r)) /\
       Count r = length (filter (answers (ResponseCategory r)) (column class_survey c)) /\
       Total r = length (filter recognized (column class_survey c))) /\
  (aggregate {| columns := columns helpdesk_export; rows := rows helpdesk_export |}
             [PyStr.lit "Response"] = Raise ValueError /\
   aggregate {| columns := columns helpdesk_export; rows := [] |}
             [PyStr.lit "Response"] = Raise ValueError).
Proof.
  split; [|split; [|split]].
  - split; [reflexivity|].
    exact (proj1 unrecognized_values_dropped (Str (PyStr.lit "N/A")) eq_refl).
  - split; [reflexivity|].
    exact (proj1 unrecognized_values_dropped NaN eq_refl).
  - split; [exact NoDup_pace_and_clarity|].
    split; [exact aggregate_class_survey|].
    exact (proj1 (proj2 unrecognized_values_dropped) class_survey pace_and_clarity
                 (result class_survey pace_and_clarity)
                 NoDup_pace_and_clarity aggregate_class_survey).
  - split; [reflexivity|].
    exact (proj2 (proj2 unrecognized_values_dropped)
                 (columns helpdesk_export) (rows helpdesk_export) []
                 [PyStr.lit "Response"] ValueError eq_refl).
Defined.

Lemma labels_free_dec (df : DataFrame) (cols : list str) :
  labels_free df cols <->
  PyStr.mem (PyStr.lit "Response") (columns df) = false /\
  PyStr.mem (PyStr.lit "Criterion") (id_vars_of df cols) = false.
Proof.
  unfold labels_free. now rewrite !mem_not_In.
Qed.

(** C3, as the script behaves: for a selection of columns of the frame,
    the analysis stops with the selection error when nothing is ticked;
    otherwise it returns its result when no column is labelled
    [Response] and no column left unticked is labelled [Criterion], and
    it raises pandas' [ValueError] when there is such a column. *)
Theorem aggregate_outcomes :
  forall (df : DataFrame) (cols : list str),
    incl cols (columns df) ->
    (cols = [] /\ aggregate df cols = Raise SelectionError) \/
    (cols <> [] /\ labels_free df cols /\
     aggregate df cols = Ok (result df cols)) \/
    (cols <> [] /\ ~ labels_free df cols /\
     aggregate df cols = Raise ValueError).
Proof.
  intros df cols Hincl. rewrite aggregate_cases.
  destruct cols as [|c cols]; [left; now split|]. right.
  assert (c :: cols <> []) as Hne by discriminate.
  rewrite labels_free_dec.
  assert (forallb (fun l => PyStr.mem l (columns df))
                  (id_vars_of df (c :: cols) ++ c :: cols) = true) as ->.
  { apply all_mem_incl, incl_app; [apply id_vars_incl|exact Hincl]. }
  simpl negb. cbv iota.
  destruct (PyStr.mem (PyStr.lit "Response") (columns df)) eqn:Hr.
  - right. repeat split; try assumption. intros [H _]. discriminate H.
  - destruct (PyStr.mem (PyStr.lit "Criterion") _) eqn:Hc.
    + right. repeat split; try assumption. intros [_ H]. discriminate H.
    + left. repeat split; assumption.
Qed.

Lemma aggregate_outcomes_witness :
  (incl pace_and_clarity (columns class_survey) /\
   labels_free class_survey pace_and_clarity /\
   aggregate class_survey pace_and_clarity
   = Ok (result class_survey pace_and_clarity)) /\
  (incl [PyStr.lit "Q1"] (columns mixed_export) /\
   ~ labels_free mixed_export [PyStr.lit "Q1"] /\
   aggregate mixed_export [PyStr.lit "Q1"] = Raise ValueError).
Proof.
  assert (incl pace_and_clarity (columns class_survey)) as H1.
  { intros x [<-|[<-|[]]]; simpl; auto. }
  assert (incl [PyStr.lit "Q1"] (columns mixed_export)) as H2.
  { intros x [<-|[]]; simpl; auto. }
  split.
  - split; [exact H1|].
    destruct (aggregate_outcomes class_survey pace_and_clarity H1)
      as [[E _]|[(_ & Hf & Ha)|(_ & _ & Ha)]].
    + discriminate E.
    + split; assumption.
    + discriminate Ha.
  - split; [exact H2|].
    destruct (aggregate_outcomes mixed_export [PyStr.lit "Q1"] H2)
      as [[E _]|[(_ & _ & Ha)|(_ & Hf & Ha)]].
    + discriminate E.
    + discriminate Ha.
    + split; assumption.
Defined.

(** C3 as stated fails: a frame with a question column next to a column
    labelled [Response] makes the analysis raise [ValueError], which is
    neither a result nor the selection error. *)
Lemma aggregate_third_outcome :
  aggregate mixed_export [PyStr.lit "Q1"] = Raise ValueError /\
  ~ ((exists res, aggregate mixed_export [PyStr.lit "Q1"] = Ok res) \/
     aggregate mixed_export [PyStr.lit "Q1"] = Raise SelectionError).
Proof.
  split; [reflexivity|].
  intros [[res H]|H]; discriminate H.
Qed.

(** C8, as the script behaves: when no column is labelled [Response] and
    no column left unticked is labelled [Criterion], a ticked column
    without any of the four answers leaves the analysis with a result in
    which no row is shown under the label of that column, and every
    total that a count is divided by is at least 1. *)
Theorem unanswered_column_has_no_rows :
  forall (df : DataFrame) (cols : list str) (c : str),
    incl cols (columns df) -> labels_free df cols ->
    In c cols ->
    (forall v, In v (column df c) -> recognized v = false) ->
    exists res lab,
      aggregate df cols = Ok res /\
      Dict.get c (criterion_short_map cols) = Some lab /\
      filter (criterion_is lab) (df_perc res) = [] /\
      Forall (fun r => 1 <= Total r) (df_perc res).
Proof.
  intros df cols c Hincl Hfree Hc Hna.
  assert (cols <> []) as Hne by (intros ->; destruct Hc).
  destruct (criterion_short_map_defined cols c Hc) as [lab Hlab].
  exists (result df cols), lab.
  split; [now apply aggregate_Ok|]. split; [exact Hlab|]. split.
  - apply filter_none. intros r Hr.
    apply In_df_perc in Hr as (k & Hk & ->).
    pose proof (keys_for_crit _ _ _ Hk) as Hck.
    assert (map_criterion (criterion_short_map cols) c = Str lab) as Hmc
        by (unfold map_criterion; now rewrite Hlab).
    change c with (crit (c, lab, lab)) in Hmc.
    rewrite (criterion_is_row_for cols _ (c, lab, lab) k lab Hc Hck Hmc).
    apply eqb_neq. unfold crit at 2. simpl fst. intros E.
    unfold keys_for in Hk. apply In_long_keys in Hk as (lr & Hlr & Hcr & Hcat & _).
    unfold melt_rows in Hlr. apply in_flat_map in Hlr as (c' & _ & Hlr).
    apply in_map_iff in Hlr as (row & <- & Hrow).
    simpl in Hcr, Hcat. rewrite E in Hcr. subst c'.
    assert (recognized (cell_at (columns df) row c) = false) as Hv.
    { apply Hna. unfold column. apply in_map_iff. eauto. }
    destruct (mapped_spec (cell_at (columns df) row c)); discriminate.
  - apply Forall_forall. intros r Hr.
    apply In_df_perc in Hr as (k & Hk & ->).
    destruct (row_for_fields (criterion_short_map cols) (keys_for df cols) k)
      as (_ & _ & _ & _ & -> & _).
    apply Nat.le_trans with (group_size key_eqb k (keys_for df cols)).
    + now apply (GroupByFacts.group_size_pos key_eqb key_eqb_eq).
    + apply count_le_total.
Qed.

Lemma labels_free_class_survey : labels_free class_survey pace_and_clarity.
Proof.
  apply labels_free_dec. split; reflexivity.
Qed.

Lemma incl_pace_and_clarity : incl pace_and_clarity (columns class_survey).
Proof.
  intros x [<-|[<-|[]]]; simpl; auto.
Qed.

Lemma unanswered_column_has_no_rows_witness :
  incl pace_and_clarity (columns class_survey) /\
  labels_free class_survey pace_and_clarity /\
  In (PyStr.lit "Clarity") pace_and_clarity /\
  (forall v, In v (column class_survey (PyStr.lit "Clarity")) ->
             recognized v = false) /\
  exists res lab,
    aggregate class_survey pace_and_clarity = Ok res /\
    Dict.get (PyStr.lit "Clarity") (criterion_short_map pace_and_clarity) = Some lab /\
    filter (criterion_is lab) (df_perc res) = [] /\
    Forall (fun r => 1 <= Total r) (df_perc res).
Proof.
  assert (forall v, In v (column class_survey (PyStr.lit "Clarity")) ->
                    recognized v = false) as Hna.
  { intros v [<-|[<-|[<-|[<-|[]]]]]; reflexivity. }
  split; [exact incl_pace_and_clarity|].
  split; [exact labels_free_class_survey|].
  split; [right; left; reflexivity|].
  split; [exact Hna|].
  exact (unanswered_column_has_no_rows class_survey pace_and_clarity
           (PyStr.lit "Clarity") incl_pace_and_clarity labels_free_class_survey
           (or_intror (or_introl eq_refl)) Hna).
Defined.

(** C8 as stated fails: the only column of this frame is ticked and
    holds nothing but ["N/A"], yet the analysis does not complete,
    because the column is labelled [Response]. *)
Lemma unanswered_response_column_raises :
  (forall v, In v (column unanswered_export (PyStr.lit "Response")) ->
             recognized v = false) /\
  aggregate unanswered_export [PyStr.lit "Response"] = Raise ValueError /\
  ~ exists res, aggregate unanswered_export [PyStr.lit "Response"] = Ok res.
Proof.
  split; [intros v [<-|[<-|[]]]; reflexivity|].
  split; [reflexivity|].
  intros [res H]. discriminate H.
Qed.

(** *** The melt *)

Lemma length_flat_map_uniform {A B : Type} (F : A -> list B) (n : nat)
      (l : list A) :
  (forall a, length (F a) = n) -> length (flat_map F l) = length l * n.
Proof.
  intros H. induction l as [|a l IH]; simpl; [reflexivity|].
  now rewrite length_app, H, IH.
Qed.

Lemma nth_error_flat_map_uniform {A B : Type} (F : A -> list B) (n : nat)
      (l : list A) :
  (forall a, length (F a) = n) ->
  forall j a i, nth_error l j = Some a -> i < n ->
                nth_error (flat_map F l) (j * n + i) = nth_error (F a) i.
Proof.
  intros H. induction l as [|x l IH]; intros j a i Hj Hi.
  - now destruct j.
  - destruct j as [|j]; simpl in Hj |- *.
    + injection Hj as ->. apply nth_error_app1. now rewrite H.
    + rewrite nth_error_app2 by (rewrite H; lia).
      rewrite H. replace (n + j * n + i - n) with (j * n + i) by lia.
      now apply IH.
Qed.

(** C9, as the script behaves: when no column of the frame is labelled
    [Response], the melt of a frame of R rows over k ticked columns of
    the frame yields R * k long rows; the one at position j * R + i is
    made of row i and the ticked column j: the name of the column, the
    cell of the row in that column, and the cells of the row in the
    columns left unticked, except that a column left unticked that is
    itself labelled [Criterion] shows the name of the ticked column.
    When no column left unticked bears that label, the long row carries
    the cells of the unticked columns as they are. *)
Theorem melt_row_count :
  forall (df : DataFrame) (cols : list str),
    incl cols (columns df) ->
    ~ In (PyStr.lit "Response") (columns df) ->
    exists lf,
      melt df (id_vars_of df cols) cols = Ok lf /\
      length (long_rows lf) = len df * length cols /\
      forall j c i row,
        nth_error cols j = Some c -> nth_error (rows df) i = Some row ->
        nth_error (long_rows lf) (j * len df + i)
        = Some {| l_ids :=
                    map (fun l => if PyStr.eqb l (PyStr.lit "Criterion")
                                  then Str c
                                  else cell_at (columns df) row l)
                        (id_vars_of df cols);
                  l_Criterion := c;
                  l_Response := cell_at (columns df) row c |} /\
        (~ In (PyStr.lit "Criterion") (id_vars_of df cols) ->
         nth_error (long_rows lf) (j * len df + i)
         = Some {| l_ids := map (cell_at (columns df) row) (id_vars_of df cols);
                   l_Criterion := c;
                   l_Response := cell_at (columns df) row c |}).
Proof.
  intros df cols Hincl Hr.
  exists {| id_labels := id_vars_of df cols;
            long_rows := melt_rows df (id_vars_of df cols) cols |}.
  split; [apply melt_Ok; auto using id_vars_incl|].
  assert (forall c, length (map (melt_row df (id_vars_of df cols) c) (rows df))
                    = len df) as Hlen by (intros c; apply length_map).
  simpl long_rows. unfold melt_rows. split.
  - rewrite (length_flat_map_uniform _ (len df)) by exact Hlen. apply Nat.mul_comm.
  - intros j c i row Hj Hi.
    assert (i < len df) as Hlt by (apply nth_error_Some; unfold len; congruence).
    rewrite (nth_error_flat_map_uniform _ (len df) cols Hlen j c i Hj Hlt).
    rewrite nth_error_map, Hi. simpl. unfold melt_row. split.
    + reflexivity.
    + intros Hc. do 2 f_equal.
      apply map_ext_in. intros l Hl. unfold id_cell.
      destruct (PyStr.eqb l (PyStr.lit "Criterion")) eqn:E; [|reflexivity].
      apply eqb_eq in E. subst l. contradiction.
Qed.

Lemma melt_row_count_witness :
  incl pace_and_clarity (columns class_survey) /\
  ~ In (PyStr.lit "Response") (columns class_survey) /\
  exists lf,
    melt class_survey (id_vars_of class_survey pace_and_clarity) pace_and_clarity
    = Ok lf /\
    length (long_rows lf) = len class_survey * length pace_and_clarity /\
    forall j c i row,
      nth_error pace_and_clarity j = Some c ->
      nth_error (rows class_survey) i = Some row ->
      nth_error (long_rows lf) (j * len class_survey + i)
      = Some {| l_ids :=
                  map (fun l => if PyStr.eqb l (PyStr.lit "Criterion")
                                then Str c
                                else cell_at (columns class_survey) row l)
                      (id_vars_of class_survey pace_and_clarity);
                l_Criterion := c;
                l_Response := cell_at (columns class_survey) row c |} /\
      (~ In (PyStr.lit "Criterion") (id_vars_of class_survey pace_and_clarity) ->
       nth_error (long_rows lf) (j * len class_survey + i)
       = Some {| l_ids := map (cell_at (columns class_survey) row)
                              (id_vars_of class_survey pace_and_clarity);
                 l_Criterion := c;
                 l_Response := cell_at (columns class_survey) row c |}).
Proof.
  split; [exact incl_pace_and_clarity|].
  split; [exact (proj1 labels_free_class_survey)|].
  exact (melt_row_count class_survey pace_and_clarity incl_pace_and_clarity
           (proj1 labels_free_class_survey)).
Defined.

(** The eight long rows of that frame. *)
Example melt_class_survey :
  option_map (fun lf => map (fun r => (l_ids r, l_Criterion r, l_Response r))
                            (long_rows lf))
             (match melt class_survey (id_vars_of class_survey pace_and_clarity)
                         pace_and_clarity with
              | Ok lf => Some lf
              | Raise _ => None
              end)
  = Some [ ([Str (PyStr.lit "Ada")], PyStr.lit "Pace", Str Agree_resp);
           ([Str (PyStr.lit "Bo")], PyStr.lit "Pace", Str StronglyDisagree_resp);
           ([Str (PyStr.lit "Cy")], PyStr.lit "Pace", Str Agree_resp);
           ([Str (PyStr.lit "Di")], PyStr.lit "Pace", Num 4);
           ([Str (PyStr.lit "Ada")], PyStr.lit "Clarity", Str (PyStr.lit "N/A"));
           ([Str (PyStr.lit "Bo")], PyStr.lit "Clarity", Str (PyStr.lit "N/A"));
           ([Str (PyStr.lit "Cy")], PyStr.lit "Clarity", NaN);
           ([Str (PyStr.lit "Di")], PyStr.lit "Clarity", Str (PyStr.lit "N/A")) ].
Proof. reflexivity. Qed.

(** C9 as stated fails, in two ways.  The ticked column of the first
    frame, of two rows, is itself labelled [Response]: the melt raises
    and there is no long frame, let alone one of two rows.  In the
    second frame the column left unticked is labelled [Criterion]: the
    melt yields its two long rows, but they carry the name of the ticked
    column where the claim has the cell of the unticked one. *)
Lemma melt_reserved_labels_break_the_reshape :
  (melt helpdesk_export (id_vars_of helpdesk_export [PyStr.lit "Response"])
        [PyStr.lit "Response"]
   = Raise ValueError /\
   ~ exists lf,
       melt helpdesk_export (id_vars_of helpdesk_export [PyStr.lit "Response"])
            [PyStr.lit "Response"] = Ok lf /\
       length (long_rows lf) = len helpdesk_export * length [PyStr.lit "Response"]) /\
  (exists lf,
      melt rubric_export (id_vars_of rubric_export [PyStr.lit "Q1"])
           [PyStr.lit "Q1"] = Ok lf /\
      id_labels lf = [PyStr.lit "Criterion"] /\
      map l_ids (long_rows lf)
      = [ [Str (PyStr.lit "Q1")]; [Str (PyStr.lit "Q1")] ] /\
      map (fun row => map (cell_at (columns rubric_export) row)
                          (id_vars_of rubric_export [PyStr.lit "Q1"]))
          (rows rubric_export)
      = [ [Str (PyStr.lit "Clarity of speech")];
          [Str (PyStr.lit "Pace of speech")] ]).
Proof.
  split.
  - split; [reflexivity|].
    intros (lf & H & _). discriminate H.
  - eexists. split; [reflexivity|]. repeat split.
Qed.

(* ===================================================================== *)
(** ** Further properties: the form *)

Lemma startswith_spec (p s : str) :
  PyStr.startswith p s = true <-> exists post, s = p ++ post.
Proof.
  revert s. induction p as [|x p IH]; intros s; simpl.
  - split; [eauto|reflexivity].
  - destruct s as [|y s].
    + split; [discriminate|intros [post H]; discriminate H].
    + rewrite andb_true_iff, N.eqb_eq, IH. split.
      * intros [-> [post ->]]. eauto.
      * intros [post [= -> ->]]. eauto.
Qed.

Lemma contains_spec (sub s : str) :
  PyStr.contains sub s = true <-> exists pre post, s = pre ++ sub ++ post.
Proof.
  induction s as [|y s IH].
  - simpl. rewrite orb_false_r, startswith_spec. split.
    + intros [post H]. exists [], post. exact H.
    + intros (pre & post & H). destruct pre as [|a pre]; [|discriminate H].
      eauto.
  - cbn [PyStr.contains]. rewrite orb_true_iff, startswith_spec, IH. split.
    + intros [[post H]|(pre & post & H)].
      * exists [], post. exact H.
      * exists (y :: pre), post. simpl. now rewrite H.
    + intros (pre & post & H). destruct pre as [|a pre].
      * left. eauto.
      * right. injection H as _ H. eauto.
Qed.

(** X1: a box is ticked when the form is first shown exactly when the
    name of its column has the text "Teacher-Specific Reflection"
    somewhere in it, letter for letter, or holds the pointing-hand
    character. *)
Theorem pre_check_spec (col : str) :
  pre_check col = true <->
  (exists pre post,
      col = pre ++ PyStr.lit "Teacher-Specific Reflection" ++ post) \/
  In 128073%N col.
Proof.
  unfold pre_check. rewrite orb_true_iff, !contains_spec. split.
  - intros [H|(pre & post & ->)]; [now left|]. right.
    apply in_or_app. right. now left.
  - intros [H|H]; [now left|]. right.
    apply in_split in H as (pre & post & ->). now exists pre, post.
Qed.

(** The case of the letters matters. *)
Example pre_check_case_sensitive :
  pre_check (PyStr.lit "Q3 - Teacher-Specific Reflection: pace") = true /\
  pre_check (PyStr.lit "Q3 - teacher-specific reflection: pace") = false.
Proof. split; reflexivity. Qed.

Lemma In_feedback_cols (d : Dict.dict bool) (c : str) :
  In c (feedback_cols_of d) <-> In (c, true) d.
Proof.
  unfold feedback_cols_of, Dict.items. rewrite in_map_iff. split.
  - intros ([k v] & <- & H). apply filter_In in H as [H Hv].
    simpl in *. now subst.
  - intros H. exists (c, true). split; [reflexivity|].
    apply filter_In. now split.
Qed.


Lemma ticked_column_is_passed_on (ui : str -> bool -> bool)
      (all_columns : list str) (c : str) :
  In c all_columns -> ticked ui c = true ->
  In c (feedback_cols_of (checkbox_states ui all_columns)).
Proof.
  intros Hin Ht. apply In_feedback_cols.
  assert (In c (Dict.keys (checkbox_states ui all_columns))) as Hk.
  { rewrite checkbox_states_items. unfold Dict.of_items.
    apply DictFacts.keys_fold_store. right.
    rewrite map_map. simpl. now rewrite map_id. }
  apply DictFacts.get_In_keys in Hk as [v Hv].
  pose proof Hv as Hv'. rewrite checkbox_states_items in Hv'.
  apply DictFacts.get_of_items, in_map_iff in Hv' as (col & [= -> E] & _).
  apply DictFacts.get_In in Hv. unfold ticked in Ht. congruence.
Qed.



(** X3: whatever is ticked, submitting the form ends in one of three
    ways: the selection error when no box of a column is ticked; pandas'
    [ValueError] when some box is ticked and a column is labelled
    [Response] or an unticked column is labelled [Criterion]; the result
    otherwise.  In particular the melt never misses a column
    ([KeyError]). *)
Theorem on_submit_outcomes :
  forall (ui : str -> bool -> bool) (df : DataFrame),
    let cols := feedback_cols_of (checkbox_states ui (columns df)) in
    ((forall c, In c (columns df) -> ticked ui c = false) /\
     on_submit ui df = Raise SelectionError) \/
    ((exists c, In c (columns df) /\ ticked ui c = true) /\
     ~ labels_free df cols /\ on_submit ui df = Raise ValueError) \/
    ((exists c, In c (columns df) /\ ticked ui c = true) /\
     labels_free df cols /\ on_submit ui df = Ok (result df cols)).
Proof.
  intros ui df cols. unfold on_submit. fold cols.
  destruct (form_selection ui df) as [_ Hincl]. fold cols in Hincl.
  rewrite aggregate_cases.
  destruct cols as [|c l] eqn:E.
  - left. split; [|reflexivity]. intros c Hc.
    destruct (ticked ui c) eqn:Ht; [|reflexivity]. exfalso.
    assert (In c (feedback_cols_of (checkbox_states ui (columns df)))) as H
        by (apply ticked_column_is_passed_on; auto).
    unfold cols in E. rewrite E in H. destruct H.
  - right.
    assert (exists c0, In c0 (columns df) /\ ticked ui c0 = true) as Hex.
    { exists c. apply feedback_cols_ticked. unfold cols in E. rewrite E. now left. }
    assert (forallb (fun x => PyStr.mem x (columns df))
                    (id_vars_of df (c :: l) ++ c :: l) = true) as ->.
    { apply all_mem_incl, incl_app; [apply id_vars_incl|exact Hincl]. }
    simpl negb. cbv iota. rewrite labels_free_dec.
    destruct (PyStr.mem (PyStr.lit "Response") (columns df)) eqn:Hr.
    + left. repeat split; try assumption. intros [H _]. discriminate H.
    + destruct (PyStr.mem (PyStr.lit "Criterion") _) eqn:Hc.
      * left. repeat split; try assumption. intros [_ H]. discriminate H.
      * right. repeat split; assumption.
Qed.

Lemma on_submit_outcomes_witness :
  on_submit all_ticked class_survey
  = Ok (result class_survey
               (feedback_cols_of (checkbox_states all_ticked (columns class_survey)))) /\
  on_submit all_ticked mixed_export = Raise ValueError /\
  on_submit none_ticked class_survey = Raise SelectionError.
Proof.
  split; [|split].
  - destruct (on_submit_outcomes all_ticked class_survey)
      as [[_ H]|[(_ & _ & H)|(_ & _ & H)]]; [discriminate H|discriminate H|exact H].
  - destruct (on_submit_outcomes all_ticked mixed_export)
      as [[_ H]|[(_ & _ & H)|(_ & _ & H)]]; [discriminate H|exact H|discriminate H].
  - destruct (on_submit_outcomes none_ticked class_survey)
      as [[_ H]|[(_ & _ & H)|(_ & _ & H)]]; [exact H|discriminate H|discriminate H].
Defined.

(* ===================================================================== *)
(** ** Further properties: the short names and their order *)

(** X4: a short name is the number, two characters, and then the whole
    name when it has at most 60 characters and 63 characters otherwise;
    so the part after the number never exceeds 63 characters, and a name
    of 61 or 62 characters is shown longer than it is. *)
Theorem short_name_length (i : nat) (c : str) :
  length (short_name i c)
  = length (PyStr.of_nat (i + 1)) + 2 + (if 60 <? length c then 63 else length c) /\
  length (short_name i c) <= length (PyStr.of_nat (i + 1)) + 65.
Proof.
  unfold short_name.
  destruct (Nat.ltb_spec 60 (length c)) as [H|H].
  - rewrite !length_app, firstn_length_le by lia. simpl. lia.
  - rewrite !length_app. simpl. lia.
Qed.

Lemma nth_error_combine_seq_at {A : Type} (l : list A) : forall s i,
  nth_error (combine (seq s (length l)) l) i
  = option_map (fun x => (s + i, x)) (nth_error l i).
Proof.
  induction l as [|a l IH]; intros s i; simpl.
  - now destruct i.
  - destruct i as [|i]; simpl.
    + now rewrite Nat.add_0_r.
    + rewrite IH. replace (S s + i) with (s + S i) by lia. reflexivity.
Qed.

Lemma nth_error_enumerate {A : Type} (l : list A) (i : nat) :
  nth_error (enumerate l) i = option_map (fun x => (i, x)) (nth_error l i).
Proof.
  unfold enumerate. now rewrite nth_error_combine_seq_at.
Qed.

Lemma StronglySorted_nth {A : Type} (R : A -> A -> Prop) (l : list A) :
  (forall i j x y, i < j -> nth_error l i = Some x -> nth_error l j = Some y ->
                   R x y) ->
  StronglySorted R l.
Proof.
  induction l as [|a l IH]; intros H; constructor.
  - apply IH. intros i j x y Hij Hi Hj. apply (H (S i) (S j)); [lia|exact Hi|exact Hj].
  - apply Forall_forall. intros y Hy.
    apply In_nth_error in Hy as [j Hj].
    apply (H 0 (S j)); [lia|reflexivity|exact Hj].
Qed.

Lemma sorted_of_sorted (l : list str) : StronglySorted str_le l -> sorted l = l.
Proof.
  induction 1 as [|x l Hs IH Hall]; [reflexivity|].
  simpl. rewrite IH. destruct l as [|y l]; [reflexivity|].
  simpl. inversion Hall as [|? ? Hxy _]; subst. unfold str_le in Hxy.
  now rewrite Hxy.
Qed.

(** With one digit each, the numbers order the short names. *)
Lemma short_name_one_digit_lt (i j : nat) (a b : str) :
  i < j -> j < 9 -> PyStr.ltb (short_name i a) (short_name j b) = true.
Proof.
  intros Hij Hj.
  destruct (short_name_shape i a) as [ra ->].
  destruct (short_name_shape j b) as [rb ->].
  do 9 (destruct j as [|j]; [do 9 (destruct i as [|i]; [reflexivity || lia|]); lia|]).
  lia.
Qed.

Lemma ltb_leb (a b : str) : PyStr.ltb a b = true -> PyStr.leb a b = true.
Proof.
  unfold PyStr.ltb, PyStr.leb. destruct (PyStr.compare a b); congruence.
Qed.

(** X5: with at most nine ticked columns, none twice, sorting the short
    names changes nothing: the bars are listed in the order of the
    ticked columns. *)
Theorem up_to_nine_labels_keep_their_order :
  forall cols : list str,
    NoDup cols -> length cols <= 9 ->
    sorted_criteria cols = Dict.values (criterion_short_map cols) /\
    sorted_criteria cols
    = map (fun ic => short_name (fst ic) (snd ic)) (enumerate cols).
Proof.
  intros cols Hnd Hlen.
  assert (Dict.values (criterion_short_map cols)
          = map (fun ic => short_name (fst ic) (snd ic)) (enumerate cols)) as Hv.
  { rewrite criterion_short_map_NoDup by assumption. apply values_short_items. }
  assert (sorted_criteria cols = Dict.values (criterion_short_map cols)) as Hs.
  { unfold sorted_criteria. apply sorted_of_sorted. rewrite Hv.
    apply StronglySorted_nth. intros i j x y Hij Hi Hj.
    rewrite nth_error_map, nth_error_enumerate in Hi, Hj.
    destruct (nth_error cols i) as [a|] eqn:Ea; [|discriminate].
    destruct (nth_error cols j) as [b|] eqn:Eb; [|discriminate].
    simpl in Hi, Hj. injection Hi as <-. injection Hj as <-.
    apply ltb_leb, short_name_one_digit_lt; [exact Hij|].
    assert (j < length cols) by (apply nth_error_Some; congruence). lia. }
  split; [exact Hs|]. now rewrite Hs.
Qed.

Lemma up_to_nine_labels_keep_their_order_witness :
  NoDup pace_and_clarity /\ length pace_and_clarity <= 9 /\
  sorted_criteria pace_and_clarity
  = Dict.values (criterion_short_map pace_and_clarity) /\
  sorted_criteria pace_and_clarity
  = map (fun ic => short_name (fst ic) (snd ic)) (enumerate pace_and_clarity).
Proof.
  assert (length pace_and_clarity <= 9) as Hlen by (simpl; lia).
  split; [exact NoDup_pace_and_clarity|]. split; [exact Hlen|].
  exact (up_to_nine_labels_keep_their_order pace_and_clarity
           NoDup_pace_and_clarity Hlen).
Defined.

(** X6: the label of every row of the result is one of the labels of the
    list that orders the bars, and that list has one label for each
    ticked column, answered or not. *)
Theorem every_row_label_is_ordered :
  forall (df : DataFrame) (cols : list str) (res : AggregateResult),
    NoDup cols -> aggregate df cols = Ok res ->
    length (sorted_labels res) = length cols /\
    forall r, In r (df_perc res) ->
      exists lab, Criterion r = Str lab /\ In lab (sorted_labels res).
Proof.
  intros df cols res Hnd Hagg.
  apply aggregate_inv in Hagg as (_ & _ & _ & ->). simpl sorted_labels. split.
  - rewrite (Permutation_length (sorted_perm _)).
    rewrite criterion_short_map_NoDup, values_short_items by assumption.
    rewrite length_map. unfold enumerate.
    rewrite length_combine, length_seq. apply Nat.min_id.
  - intros r Hr. apply In_df_perc in Hr as (k & Hk & ->).
    pose proof (keys_for_crit _ _ _ Hk) as Hc.
    destruct (criterion_short_map_defined cols (crit k) Hc) as [lab Hlab].
    exists lab. split.
    + destruct (row_for_fields (criterion_short_map cols) (keys_for df cols) k)
        as (-> & _).
      unfold map_criterion. now rewrite Hlab.
    + eapply Permutation_in; [symmetry; apply sorted_perm|].
      apply DictFacts.get_In in Hlab. unfold Dict.values.
      apply in_map_iff. now exists (crit k, lab).
Qed.

Lemma every_row_label_is_ordered_witness :
  NoDup pace_and_clarity /\
  aggregate class_survey pace_and_clarity
  = Ok (result class_survey pace_and_clarity) /\
  length (sorted_labels (result class_survey pace_and_clarity))
  = length pace_and_clarity /\
  forall r, In r (df_perc (result class_survey pace_and_clarity)) ->
    exists lab, Criterion r = Str lab /\
                In lab (sorted_labels (result class_survey pace_and_clarity)).
Proof.
  split; [exact NoDup_pace_and_clarity|].
  split; [exact aggregate_class_survey|].
  exact (every_row_label_is_ordered class_survey pace_and_clarity
           (result class_survey pace_and_clarity)
           NoDup_pace_and_clarity aggregate_class_survey).
Defined.

(* ===================================================================== *)
(** ** Further properties: the rows of the result *)

(** X7: every category of the result is in the domain of the colour
    scale: rows of positive sentiment are drawn in one of the two greens
    and rows of negative sentiment in one of the two reds, the darker for
    the strong answer. *)
Theorem sentiment_colours :
  forall (df : DataFrame) (cols : list str) (res : AggregateResult),
    aggregate df cols = Ok res ->
    forall r, In r (df_perc res) ->
      In (ResponseCategory r) color_domain /\
      ((Sentiment r = PyStr.lit "Positive" /\
        ((ResponseCategory r = PyStr.lit "Strongly Agree" /\
          color_of (ResponseCategory r) = Some (PyStr.lit "#006837")) \/
         (ResponseCategory r = PyStr.lit "Agree" /\
          color_of (ResponseCategory r) = Some (PyStr.lit "#31a354")))) \/
       (Sentiment r = PyStr.lit "Negative" /\
        ((ResponseCategory r = PyStr.lit "Disagree" /\
          color_of (ResponseCategory r) = Some (PyStr.lit "#fb6a4a")) \/
         (ResponseCategory r = PyStr.lit "Strongly Disagree" /\
          color_of (ResponseCategory r) = Some (PyStr.lit "#a50f15"))))).
Proof.
  intros df cols res Hagg r Hr.
  apply aggregate_inv in Hagg as (_ & _ & _ & ->).
  apply In_df_perc in Hr as (k & Hk & ->).
  destruct (row_for_fields (criterion_short_map cols) (keys_for df cols) k)
    as (_ & -> & -> & _).
  destruct (key_recognized _ _ Hk) as (v & Hc & Hs).
  destruct (mapped_spec v); try discriminate Hc;
    injection Hc as <-; injection Hs as <-.
  - split; [now left|]. left. split; [reflexivity|]. left. now split.
  - split; [now right; left|]. left. split; [reflexivity|]. right. now split.
  - split; [now right; right; left|]. right. split; [reflexivity|]. left. now split.
  - split; [now right; right; right; left|]. right. split; [reflexivity|]. right.
    now split.
Qed.

Lemma sentiment_colours_witness :
  aggregate class_survey pace_and_clarity
  = Ok (result class_survey pace_and_clarity) /\
  forall r, In r (df_perc (result class_survey pace_and_clarity)) ->
    In (ResponseCategory r) color_domain /\
    ((Sentiment r = PyStr.lit "Positive" /\
      ((ResponseCategory r = PyStr.lit "Strongly Agree" /\
        color_of (ResponseCategory r) = Some (PyStr.lit "#006837")) \/
       (ResponseCategory r = PyStr.lit "Agree" /\
        color_of (ResponseCategory r) = Some (PyStr.lit "#31a354")))) \/
     (Sentiment r = PyStr.lit "Negative" /\
      ((ResponseCategory r = PyStr.lit "Disagree" /\
        color_of (ResponseCategory r) = Some (PyStr.lit "#fb6a4a")) \/
       (ResponseCategory r = PyStr.lit "Strongly Disagree" /\
        color_of (ResponseCategory r) = Some (PyStr.lit "#a50f15"))))).
Proof.
  split; [exact aggregate_class_survey|].
  exact (sentiment_colours class_survey pace_and_clarity
           (result class_survey pace_and_clarity) aggregate_class_survey).
Defined.

Lemma NoDup_map_inj_in {A B : Type} (f : A -> B) (l : list A) :
  NoDup l -> (forall x y, In x l -> In y l -> f x = f y -> x = y) ->
  NoDup (map f l).
Proof.
  induction 1 as [|a l Ha Hnd IH]; intros Hinj; simpl; constructor.
  - intros Hin. apply in_map_iff in Hin as (y & E & Hy).
    apply Ha. rewrite (Hinj a y); auto; [now left|now right].
  - apply IH. intros x y Hx Hy. apply Hinj; now right.
Qed.

(** The label and the category of a row name its group. *)
Lemma row_for_inj (df : DataFrame) (cols : list str) (k k' : key) :
  In k (keys_for df cols) -> In k' (keys_for df cols) ->
  Criterion (row_for (criterion_short_map cols) (keys_for df cols) k)
  = Criterion (row_for (criterion_short_map cols) (keys_for df cols) k') ->
  ResponseCategory (row_for (criterion_short_map cols) (keys_for df cols) k)
  = ResponseCategory (row_for (criterion_short_map cols) (keys_for df cols) k') ->
  k = k'.
Proof.
  intros Hk Hk'.
  destruct (row_for_fields (criterion_short_map cols) (keys_for df cols) k)
    as (-> & -> & _).
  destruct (row_for_fields (criterion_short_map cols) (keys_for df cols) k')
    as (-> & -> & _).
  intros Hc Hcat.
  apply (map_criterion_inj cols) in Hc; try now apply (keys_for_crit df).
  destruct (key_recognized _ _ Hk) as (v & Hv & Hs).
  destruct (key_recognized _ _ Hk') as (v' & Hv' & Hs').
  rewrite <- Hcat in Hv'.
  pose proof (sentiment_of_category _ _ _ Hv Hv') as E. rewrite Hs, Hs' in E.
  injection E as E.
  destruct k as [[c cat] s], k' as [[c' cat'] s']. unfold crit in Hc.
  simpl in *. congruence.
Qed.

Lemma df_perc_as_rows (df : DataFrame) (cols : list str) :
  df_perc (result df cols)
  = map (row_for (criterion_short_map cols) (keys_for df cols))
        (map fst (groupby_size key_eqb key_leb (keys_for df cols))).
Proof.
  rewrite df_perc_result. now rewrite map_map.
Qed.

Lemma In_group_keys (keys : list key) (k : key) :
  In k (map fst (groupby_size key_eqb key_leb keys)) <-> In k keys.
Proof.
  rewrite in_map_iff. split.
  - intros ([k' n] & E & H). simpl in E. subst k'.
    now apply (GroupByFacts.In_groupby _ _ key_eqb_eq) in H as [H _].
  - intros H. exists (k, group_size key_eqb k keys). split; [reflexivity|].
    now apply (GroupByFacts.In_groupby _ _ key_eqb_eq).
Qed.

Lemma criterion_is_true (lab : str) (r : AggregateRow) :
  criterion_is lab r = true <-> Criterion r = Str lab.
Proof.
  unfold criterion_is. destruct (Criterion r) as [s|z|].
  - rewrite eqb_eq. split; [now intros ->|now intros [= ->]].
  - split; discriminate.
  - split; discriminate.
Qed.

(** X8: the result has one row for each pair of a label and a category
    that was answered, and none twice; a row counts at least one answer
    and at most the total of its label; so a label has at most four
    rows, and a category nobody chose has no row rather than a row of
    count 0. *)
Theorem one_row_per_label_and_category :
  forall (df : DataFrame) (cols : list str) (res : AggregateResult),
    aggregate df cols = Ok res ->
    NoDup (map (fun r => (Criterion r, ResponseCategory r)) (df_perc res)) /\
    (forall r, In r (df_perc res) -> 1 <= Count r /\ Count r <= Total r) /\
    (forall lab, length (filter (criterion_is lab) (df_perc res)) <= 4).
Proof.
  intros df cols res Hagg.
  apply aggregate_inv in Hagg as (_ & _ & _ & ->).
  assert (NoDup (map (fun r => (Criterion r, ResponseCategory r))
                     (df_perc (result df cols)))) as Hnd.
  { rewrite df_perc_as_rows, map_map.
    apply NoDup_map_inj_in.
    - apply (GroupByFacts.NoDup_groupby_keys key_eqb key_leb key_eqb_eq).
    - intros k k' Hk Hk' [= Hc Hcat].
      rewrite In_group_keys in Hk, Hk'. now apply (row_for_inj df cols). }
  split; [exact Hnd|]. split.
  - intros r Hr. apply In_df_perc in Hr as (k & Hk & ->).
    destruct (row_for_fields (criterion_short_map cols) (keys_for df cols) k)
      as (_ & _ & _ & -> & -> & _).
    split; [now apply (GroupByFacts.group_size_pos key_eqb key_eqb_eq)|].
    apply count_le_total.
  - intros lab.
    rewrite <- (length_map ResponseCategory).
    change 4 with (length color_domain).
    apply NoDup_incl_length.
    + revert Hnd. generalize (df_perc (result df cols)). intros l Hnd.
      induction l as [|r l IH]; simpl; [constructor|].
      inversion Hnd as [|? ? Hn Hd]; subst.
      destruct (criterion_is lab r) eqn:E; [|auto].
      simpl. constructor; [|auto].
      intros Hin. apply Hn. apply in_map_iff in Hin as (r' & Hcat & Hr').
      apply filter_In in Hr' as [Hr' E']. apply in_map_iff. exists r'.
      split; [|exact Hr'].
      apply criterion_is_true in E, E'. congruence.
    + intros cat Hcat. apply in_map_iff in Hcat as (r & <- & Hr).
      apply filter_In in Hr as [Hr _].
      apply In_df_perc in Hr as (k & Hk & ->).
      destruct (row_for_fields (criterion_short_map cols) (keys_for df cols) k)
        as (_ & -> & _).
      destruct (key_recognized _ _ Hk) as (v & Hc & _).
      destruct (mapped_spec v); try discriminate Hc; injection Hc as <-;
        simpl; auto.
Qed.

Lemma one_row_per_label_and_category_witness :
  aggregate class_survey pace_and_clarity
  = Ok (result class_survey pace_and_clarity) /\
  NoDup (map (fun r => (Criterion r, ResponseCategory r))
             (df_perc (result class_survey pace_and_clarity))) /\
  (forall r, In r (df_perc (result class_survey pace_and_clarity)) ->
             1 <= Count r /\ Count r <= Total r) /\
  (forall lab,
      length (filter (criterion_is lab)
                     (df_perc (result class_survey pace_and_clarity))) <= 4).
Proof.
  split; [exact aggregate_class_survey|].
  exact (one_row_per_label_and_category class_survey pace_and_clarity
           (result class_survey pace_and_clarity) aggregate_class_survey).
Defined.

Lemma filter_all {A : Type} (P : A -> bool) (l : list A) :
  (forall x, In x l -> P x = true) -> filter P l = l.
Proof.
  induction l as [|a l IH]; intros H; simpl; [reflexivity|].
  rewrite H by now left. f_equal. apply IH. intros x Hx. apply H. now right.
Qed.

(** The recognised rows of the long frame, counted column by column. *)
Lemma length_keys_for (df : DataFrame) (cols : list str) :
  length (keys_for df cols)
  = list_sum (map (fun c => length (filter recognized (column df c))) cols).
Proof.
  rewrite keys_for_columns, length_flat_map. f_equal.
  apply map_ext. intros c.
  rewrite <- (filter_all (fun k => PyStr.eqb (crit k) c)
                         (long_keys (map (melt_row df (id_vars_of df cols) c)
                                         (rows df)))).
  - rewrite total_in_column. unfold column. now rewrite length_filter_map.
  - intros k Hk. apply column_keys_crit in Hk. subst. apply eqb_refl.
Qed.

(** X10: the counts of all the rows of the result add up to the number
    of cells of the ticked columns that hold one of the four answers: no
    recognised answer is lost or counted twice, and nothing else is
    counted. *)
Theorem counts_add_up_to_the_recognized_cells :
  forall (df : DataFrame) (cols : list str) (res : AggregateResult),
    aggregate df cols = Ok res ->
    list_sum (map Count (df_perc res))
    = list_sum (map (fun c => length (filter recognized (column df c))) cols).
Proof.
  intros df cols res Hagg.
  apply aggregate_inv in Hagg as (_ & _ & _ & ->).
  rewrite <- length_keys_for, df_perc_result.
  rewrite <- (filter_all (fun _ => true)
                (map (fun kn => row_for (criterion_short_map cols)
                                        (keys_for df cols) (fst kn))
                     (groupby_size key_eqb key_leb (keys_for df cols))))
    by reflexivity.
  rewrite (sum_counts_filter _ _ _ (fun _ => true)).
  - rewrite (GroupByFacts.groupby_sum key_eqb key_leb key_eqb_eq
               (fun _ => true)).
    now rewrite filter_all.
  - intros [k n] Hin. cbn [fst snd]. split; [reflexivity|].
    apply (GroupByFacts.In_groupby _ _ key_eqb_eq) in Hin as [_ ->].
    now destruct (row_for_fields (criterion_short_map cols)
                                 (keys_for df cols) k) as (_ & _ & _ & -> & _).
Qed.

Lemma counts_add_up_to_the_recognized_cells_witness :
  aggregate class_survey pace_and_clarity
  = Ok (result class_survey pace_and_clarity) /\
  list_sum (map Count (df_perc (result class_survey pace_and_clarity)))
  = list_sum (map (fun c => length (filter recognized (column class_survey c)))
                  pace_and_clarity).
Proof.
  split; [exact aggregate_class_survey|].
  exact (counts_add_up_to_the_recognized_cells class_survey pace_and_clarity
           (result class_survey pace_and_clarity) aggregate_class_survey).
Defined.

Lemma unrecognized_unmapped (v : cell) :
  recognized v = false -> series_map response_to_category v = None.
Proof.
  intros H. destruct (series_map response_to_category v) as [cat|] eqn:E;
    [|reflexivity].
  assert (recognized v = true) as H'.
  { apply recognized_mapped. destruct (mapped_spec v); try discriminate E; eauto. }
  congruence.
Qed.

(** X11: the analysis of a table in which no cell of a ticked column
    holds one of the four answers does not fail: it succeeds with no row
    at all, so the page shows an empty chart; and this is the only way
    to an empty chart. *)
Theorem no_rows_iff_nothing_recognized :
  forall (df : DataFrame) (cols : list str) (res : AggregateResult),
    aggregate df cols = Ok res ->
    (df_perc res = [] <->
     forall c, In c cols ->
               forall v, In v (column df c) -> recognized v = false).
Proof.
  intros df cols res Hagg.
  apply aggregate_inv in Hagg as (_ & _ & _ & ->). split.
  - intros Hnil c Hc v Hv.
    destruct (recognized v) eqn:E; [exfalso|reflexivity].
    apply recognized_mapped in E as (cat & sent & Hcat & Hsent).
    unfold column in Hv. apply in_map_iff in Hv as (row & <- & Hrow).
    assert (In (c, cat, sent) (keys_for df cols)) as Hk.
    { rewrite keys_for_columns. apply in_flat_map. exists c. split; [exact Hc|].
      apply In_long_keys.
      exists (melt_row df (id_vars_of df cols) c row). repeat split.
      - apply in_map_iff. now exists row.
      - exact Hcat.
      - exact Hsent. }
    assert (In (row_for (criterion_short_map cols) (keys_for df cols)
                        (c, cat, sent))
               (df_perc (result df cols))) as Hin
        by (apply In_df_perc; eauto).
    rewrite Hnil in Hin. destruct Hin.
  - intros Hnone.
    destruct (df_perc (result df cols)) as [|r l] eqn:E; [reflexivity|].
    exfalso.
    assert (In r (df_perc (result df cols))) as Hr by (rewrite E; now left).
    apply In_df_perc in Hr as (k & Hk & _).
    rewrite keys_for_columns in Hk. apply in_flat_map in Hk as (c & Hc & Hk).
    apply In_long_keys in Hk as (lr & Hlr & _ & Hcat & _).
    apply in_map_iff in Hlr as (row & <- & Hrow).
    cbn [melt_row l_Response] in Hcat.
    rewrite unrecognized_unmapped in Hcat; [discriminate|].
    apply (Hnone c Hc). unfold column. apply in_map_iff. now exists row.
Qed.

Lemma no_rows_iff_nothing_recognized_witness :
  aggregate class_survey pace_and_clarity
  = Ok (result class_survey pace_and_clarity) /\
  (df_perc (result class_survey pace_and_clarity) = [] <->
   forall c, In c pace_and_clarity ->
             forall v, In v (column class_survey c) -> recognized v = false).
Proof.
  split; [exact aggregate_class_survey|].
  exact (no_rows_iff_nothing_recognized class_survey pace_and_clarity
           (result class_survey pace_and_clarity) aggregate_class_survey).
Defined.

(* ===================================================================== *)
(** ** Further properties: what the result depends on *)

(** The result is a function of the number of rows and of the keys of
    the recognised rows. *)
Lemma result_ext (df1 df2 : DataFrame) (cols : list str) :
  len df1 = len df2 -> keys_for df1 cols = keys_for df2 cols ->
  result df1 cols = result df2 cols.
Proof.
  intros Hlen Hkeys.
  assert (df_perc (result df1 cols) = df_perc (result df2 cols)) as H
      by (rewrite !df_perc_result, Hkeys; reflexivity).
  unfold result in *. simpl df_perc in H. f_equal; assumption.
Qed.

Lemma aggregate_ext (df1 df2 : DataFrame) (cols : list str) :
  columns df1 = columns df2 -> len df1 = len df2 ->
  keys_for df1 cols = keys_for df2 cols ->
  aggregate df1 cols = aggregate df2 cols.
Proof.
  intros Hcols Hlen Hkeys. rewrite !aggregate_cases.
  unfold id_vars_of. rewrite Hcols, (result_ext df1 df2) by assumption.
  reflexivity.
Qed.

Lemma flat_map_ext_in {A B : Type} (f g : A -> list B) (l : list A) :
  (forall a, In a l -> f a = g a) -> flat_map f l = flat_map g l.
Proof.
  induction l as [|a l IH]; intros H; simpl; [reflexivity|].
  rewrite (H a) by now left. f_equal. apply IH. intros x Hx. apply H. now right.
Qed.

(** X12: the analysis reads the cells of the ticked columns only: two
    tables with the same labels whose rows agree on the ticked columns
    give the same outcome, whatever the other columns hold. *)
Theorem unticked_cells_do_not_matter :
  forall (df1 df2 : DataFrame) (cols : list str),
    columns df1 = columns df2 ->
    agree_on (columns df1) cols (rows df1) (rows df2) ->
    aggregate df1 cols = aggregate df2 cols.
Proof.
  intros df1 df2 cols Hcols Hagree. apply aggregate_ext.
  - exact Hcols.
  - unfold len. eapply Forall2_length. exact Hagree.
  - rewrite !keys_for_columns. apply flat_map_ext_in. intros c Hc.
    unfold id_vars_of. rewrite <- Hcols.
    generalize (filter (fun col => negb (PyStr.mem col cols)) (columns df1)).
    intros ids. unfold agree_on in Hagree.
    induction Hagree as [|r1 r2 l1 l2 Hr _ IH]; [reflexivity|].
    cbn [map]. rewrite !long_keys_cons. cbn [melt_row l_Response l_Criterion].
    rewrite <- Hcols, <- (Hr c Hc), IH. reflexivity.
Qed.

Lemma unticked_cells_do_not_matter_witness :
  aggregate class_survey pace_and_clarity
  = aggregate
      {| columns := columns class_survey;
         rows := map (fun r => Str (PyStr.lit "anonymous") :: tl r)
                     (rows class_survey) |}
      pace_and_clarity.
Proof.
  apply unticked_cells_do_not_matter; [reflexivity|].
  repeat constructor; intros c [<-|[<-|[]]]; reflexivity.
Defined.

(** *** The order of the rows of the table *)

Module GroupByOrder.
Section Order.
Context {K : Type} (eqb leb : K -> K -> bool).
Hypothesis eqb_eq : forall x y, eqb x y = true <-> x = y.
Hypothesis leb_total : forall x y, leb x y = true \/ leb y x = true.
Hypothesis leb_trans :
  forall x y z, leb x y = true -> leb y z = true -> leb x z = true.
Hypothesis leb_antisym : forall x y, leb x y = true -> leb y x = true -> x = y.

Lemma insert_key_sorted (x : K) (l : list K) :
  StronglySorted (fun a b => leb a b = true) l ->
  StronglySorted (fun a b => leb a b = true) (insert_key leb x l).
Proof.
  induction 1 as [|y l Hs IH Hall]; simpl.
  - constructor; constructor.
  - destruct (leb x y) eqn:E.
    + constructor; [now constructor|].
      constructor; [exact E|].
      eapply Forall_impl; [|exact Hall].
      intros z Hz. eapply leb_trans; eassumption.
    + constructor; [exact IH|].
      eapply Permutation_Forall;
        [symmetry; apply GroupByFacts.insert_key_perm|].
      constructor; [|exact Hall].
      destruct (leb_total x y) as [H|H]; [congruence|exact H].
Qed.

Lemma sort_keys_sorted (l : list K) :
  StronglySorted (fun a b => leb a b = true) (sort_keys leb l).
Proof.
  induction l as [|x l IH]; simpl; [constructor|].
  now apply insert_key_sorted.
Qed.

(** A list has one sorted arrangement. *)
Lemma sorted_arrangement_unique (l l' : list K) :
  StronglySorted (fun a b => leb a b = true) l ->
  StronglySorted (fun a b => leb a b = true) l' ->
  Permutation l l' -> l = l'.
Proof.
  intros Hs. revert l'.
  induction Hs as [|x l Hs IH Hx]; intros l' Hs' Hp.
  - apply Permutation_nil in Hp. now subst.
  - destruct l' as [|y l'];
      [apply Permutation_sym, Permutation_nil in Hp; discriminate|].
    inversion Hs' as [|? ? Hs'' Hy]; subst.
    assert (x = y) as ->.
    { assert (In x (y :: l')) as Hin
          by (eapply Permutation_in; [exact Hp|now left]).
      assert (In y (x :: l)) as Hin'
          by (eapply Permutation_in; [symmetry; exact Hp|now left]).
      destruct Hin as [->|Hin]; [reflexivity|].
      destruct Hin' as [->|Hin']; [reflexivity|].
      rewrite Forall_forall in Hx, Hy. apply leb_antisym; auto. }
    f_equal. apply IH; [exact Hs''|].
    eapply Permutation_cons_inv. exact Hp.
Qed.

Lemma length_filter_perm (P : K -> bool) (l l' : list K) :
  Permutation l l' -> length (filter P l) = length (filter P l').
Proof.
  induction 1 as [|x l l' _ IH|x y l|l l' l'' _ IH1 _ IH2]; simpl.
  - reflexivity.
  - destruct (P x); simpl; now rewrite IH.
  - destruct (P x), (P y); reflexivity.
  - congruence.
Qed.

(** [groupby(...).size()] does not depend on the order of the rows. *)
Lemma groupby_size_perm (l l' : list K) :
  Permutation l l' -> groupby_size eqb leb l = groupby_size eqb leb l'.
Proof.
  intros Hp. unfold groupby_size.
  assert (sort_keys leb (unique eqb l) = sort_keys leb (unique eqb l')) as ->.
  { apply sorted_arrangement_unique; try apply sort_keys_sorted.
    rewrite !GroupByFacts.sort_keys_perm.
    apply NoDup_Permutation;
      try apply (GroupByFacts.NoDup_unique eqb eqb_eq).
    intros x. rewrite !(GroupByFacts.In_unique eqb leb eqb_eq).
    split; apply Permutation_in; [exact Hp|symmetry; exact Hp]. }
  apply map_ext. intros k. unfold group_size.
  now rewrite (length_filter_perm _ _ _ Hp).
Qed.
End Order.
End GroupByOrder.

Lemma key_leb_compare (a b : key) :
  key_leb a b = match key_compare a b with Gt => false | _ => true end.
Proof.
  destruct a as [[a1 a2] a3], b as [[b1 b2] b3]. unfold key_leb, key_compare.
  destruct (PyStr.compare a1 b1); try reflexivity.
  destruct (PyStr.compare a2 b2); reflexivity.
Qed.

Lemma key_compare_antisym (a b : key) :
  key_compare b a = CompOpp (key_compare a b).
Proof.
  destruct a as [[a1 a2] a3], b as [[b1 b2] b3]. unfold key_compare.
  rewrite (compare_antisym a1 b1), (compare_antisym a2 b2),
    (compare_antisym a3 b3).
  destruct (PyStr.compare a1 b1); try reflexivity.
  destruct (PyStr.compare a2 b2); reflexivity.
Qed.

Lemma key_compare_eq (a b : key) : key_compare a b = Eq -> a = b.
Proof.
  destruct a as [[a1 a2] a3], b as [[b1 b2] b3]. unfold key_compare.
  destruct (PyStr.compare a1 b1) eqn:E1; try discriminate.
  destruct (PyStr.compare a2 b2) eqn:E2; try discriminate.
  intros E3. apply compare_eq in E1, E2, E3. now subst.
Qed.

Lemma key_compare_lt_trans (a b c : key) :
  key_compare a b = Lt -> key_compare b c = Lt -> key_compare a c = Lt.
Proof.
  destruct a as [[a1 a2] a3], b as [[b1 b2] b3], c as [[c1 c2] c3].
  unfold key_compare.
  destruct (PyStr.compare a1 b1) eqn:A1; try discriminate.
  - apply compare_eq in A1. subst b1.
    destruct (PyStr.compare a1 c1) eqn:C1; try discriminate; [|reflexivity].
    destruct (PyStr.compare a2 b2) eqn:A2; try discriminate.
    + apply compare_eq in A2. subst b2.
      destruct (PyStr.compare a2 c2) eqn:C2; try discriminate; [|reflexivity].
      apply compare_lt_trans.
    + intros _.
      destruct (PyStr.compare b2 c2) eqn:C2; try discriminate.
      * apply compare_eq in C2. subst c2. now rewrite A2.
      * now rewrite (compare_lt_trans _ _ _ A2 C2).
  - intros _.
    destruct (PyStr.compare b1 c1) eqn:C1; try discriminate.
    + apply compare_eq in C1. subst c1. now rewrite A1.
    + now rewrite (compare_lt_trans _ _ _ A1 C1).
Qed.

Lemma key_leb_total (a b : key) : key_leb a b = true \/ key_leb b a = true.
Proof.
  rewrite !key_leb_compare, (key_compare_antisym a b).
  destruct (key_compare a b); simpl; auto.
Qed.

Lemma key_leb_trans (a b c : key) :
  key_leb a b = true -> key_leb b c = true -> key_leb a c = true.
Proof.
  rewrite !key_leb_compare.
  destruct (key_compare a b) eqn:E1; try discriminate;
    destruct (key_compare b c) eqn:E2; try discriminate; intros _ _.
  - apply key_compare_eq in E1. subst. now rewrite E2.
  - apply key_compare_eq in E1. subst. now rewrite E2.
  - apply key_compare_eq in E2. subst. now rewrite E1.
  - now rewrite (key_compare_lt_trans _ _ _ E1 E2).
Qed.

Lemma key_leb_antisym (a b : key) :
  key_leb a b = true -> key_leb b a = true -> a = b.
Proof.
  rewrite !key_leb_compare, (key_compare_antisym a b).
  destruct (key_compare a b) eqn:E; simpl; try discriminate.
  intros _ _. now apply key_compare_eq.
Qed.

(** The rows of [df_perc] come in the order of their keys. *)
Lemma group_keys_sorted (keys : list key) :
  StronglySorted key_le (map fst (groupby_size key_eqb key_leb keys)).
Proof.
  unfold groupby_size. rewrite map_map. simpl. rewrite map_id.
  apply (GroupByOrder.sort_keys_sorted key_leb key_leb_total key_leb_trans).
Qed.

Lemma long_keys_perm (l l' : list LongRow) :
  Permutation l l' -> Permutation (long_keys l) (long_keys l').
Proof.
  induction 1 as [|x l l' _ IH|x y l|l l' l'' _ IH1 _ IH2].
  - reflexivity.
  - rewrite !long_keys_cons.
    destruct (series_map response_to_category (l_Response x));
      [|exact IH].
    destruct (series_map response_to_sentiment (l_Response x));
      [now constructor|exact IH].
  - rewrite !long_keys_cons.
    destruct (series_map response_to_category (l_Response x)),
             (series_map response_to_sentiment (l_Response x)),
             (series_map response_to_category (l_Response y)),
             (series_map response_to_sentiment (l_Response y));
      try reflexivity.
    apply perm_swap.
  - now transitivity (long_keys l').
Qed.

Lemma flat_map_perm_pointwise {A B : Type} (f g : A -> list B) (l : list A) :
  (forall a, Permutation (f a) (g a)) ->
  Permutation (flat_map f l) (flat_map g l).
Proof.
  intros H. induction l as [|a l IH]; simpl; [reflexivity|].
  now apply Permutation_app.
Qed.

(** X13: the analysis does not depend on the order of the rows of the
    table: a table with the same labels and the same rows in another
    order gives the same outcome, row for row, and the rows of the
    result always come sorted by column name, then category. *)
Theorem row_order_does_not_matter :
  forall (df1 df2 : DataFrame) (cols : list str),
    columns df1 = columns df2 ->
    Permutation (rows df1) (rows df2) ->
    aggregate df1 cols = aggregate df2 cols /\
    (forall res, aggregate df1 cols = Ok res ->
       exists keys, StronglySorted key_le keys /\ NoDup keys /\
         df_perc res
         = map (row_for (criterion_short_map cols) (keys_for df1 cols)) keys).
Proof.
  intros df1 df2 cols Hcols Hp. split.
  - rewrite !aggregate_cases. unfold id_vars_of. rewrite <- Hcols.
    destruct cols as [|c cols]; [reflexivity|].
    destruct (PyStr.mem (PyStr.lit "Response") (columns df1)); [reflexivity|].
    destruct (negb _); [reflexivity|].
    destruct (PyStr.mem (PyStr.lit "Criterion") _); [reflexivity|].
    f_equal.
    assert (df_perc (result df1 (c :: cols)) = df_perc (result df2 (c :: cols)))
      as H.
    { rewrite !df_perc_result.
      assert (Permutation (keys_for df1 (c :: cols)) (keys_for df2 (c :: cols)))
        as Hk.
      { rewrite !keys_for_columns. unfold id_vars_of. rewrite <- Hcols.
        apply flat_map_perm_pointwise. intros a. apply long_keys_perm.
        replace (melt_row df2) with (melt_row df1).
        - now apply Permutation_map.
        - unfold melt_row, id_cell. now rewrite Hcols. }
      rewrite (GroupByOrder.groupby_size_perm key_eqb key_leb key_eqb_eq
                 key_leb_total key_leb_trans key_leb_antisym _ _ Hk).
      apply map_ext_in. intros [k n] _. cbn [fst].
      unfold row_for, group_size. f_equal. f_equal; [f_equal|].
      - apply (GroupByOrder.length_filter_perm _ _ _ Hk).
      - apply GroupByOrder.length_filter_perm. now apply Permutation_map. }
    unfold result in *. simpl df_perc in H. f_equal; [|exact H].
    unfold len. now apply Permutation_length.
  - intros res Hagg. apply aggregate_inv in Hagg as (_ & _ & _ & ->).
    exists (map fst (groupby_size key_eqb key_leb (keys_for df1 cols))).
    split; [apply group_keys_sorted|]. split.
    + apply (GroupByFacts.NoDup_groupby_keys key_eqb key_leb key_eqb_eq).
    + apply df_perc_as_rows.
Qed.

Lemma row_order_does_not_matter_witness :
  aggregate class_survey pace_and_clarity
  = aggregate {| columns := columns class_survey;
                 rows := rev (rows class_survey) |}
              pace_and_clarity.
Proof.
  exact (proj1 (row_order_does_not_matter
                  class_survey
                  {| columns := columns class_survey;
                     rows := rev (rows class_survey) |}
                  pace_and_clarity eq_refl
                  (Permutation_rev (rows class_survey)))).
Defined.

(* ===================================================================== *)
(** ** Further properties: a run of the script *)

Lemma endswith_spec (suffix s : str) :
  endswith suffix s = true <-> exists pre, s = pre ++ suffix.
Proof.
  unfold endswith. rewrite startswith_spec. split.
  - intros [post H]. exists (rev post).
    rewrite <- (rev_involutive s), H, rev_app_distr.
    now rewrite rev_involutive.
  - intros [pre ->]. exists (rev pre). apply rev_app_distr.
Qed.

Lemma on_submit_cases (ui : str -> bool -> bool) (df : DataFrame) :
  on_submit ui df
  = match feedback_cols_of (checkbox_states ui (columns df)) with
    | [] => Raise SelectionError
    | _ :: _ =>
        if PyStr.mem (PyStr.lit "Response") (columns df)
           || PyStr.mem (PyStr.lit "Criterion")
                (id_vars_of df (feedback_cols_of
                                  (checkbox_states ui (columns df))))
        then Raise ValueError
        else Ok (result df (feedback_cols_of (checkbox_states ui (columns df))))
    end.
Proof.
  unfold on_submit. rewrite aggregate_cases.
  destruct (form_selection ui df) as [_ Hincl].
  destruct (feedback_cols_of (checkbox_states ui (columns df))) as [|c l];
    [reflexivity|].
  assert (forallb (fun x => PyStr.mem x (columns df))
                  (id_vars_of df (c :: l) ++ c :: l) = true) as ->.
  { apply all_mem_incl, incl_app; [apply id_vars_incl|exact Hincl]. }
  simpl negb. cbv iota.
  destruct (PyStr.mem (PyStr.lit "Response") (columns df)); [reflexivity|].
  reflexivity.
Qed.

Lemma some_column_ticked (ui : str -> bool -> bool) (all_columns : list str) :
  feedback_cols_of (checkbox_states ui all_columns) <> [] <->
  exists c, In c all_columns /\ ticked ui c = true.
Proof.
  split.
  - destruct (feedback_cols_of (checkbox_states ui all_columns)) as [|c l] eqn:E;
      [congruence|].
    intros _. exists c. apply feedback_cols_ticked. rewrite E. now left.
  - intros (c & Hc & Ht) E.
    pose proof (ticked_column_is_passed_on ui all_columns c Hc Ht) as H.
    rewrite E in H. destruct H.
Qed.

(** The loop that draws the form ends with all the boxes drawn exactly
    when every label is a [str] and none is on the page already. *)
Lemma draw_checkboxes_drawn (l : list label) (d cols : list str) :
  draw_checkboxes l d = inr cols <->
  l = map LStr cols /\ NoDup cols /\ (forall c, In c cols -> ~ In c d).
Proof.
  revert d cols. induction l as [|x l IH]; intros d cols.
  - simpl. split.
    + intros [= <-]. split; [reflexivity|]. split; [constructor|intros c []].
    + intros (H & _). destruct cols; [reflexivity|discriminate H].
  - destruct x as [s|z|q|t|b];
      try (simpl; split; [discriminate|]; intros (H & _);
           destruct cols; discriminate H).
    simpl. destruct (PyStr.mem s d) eqn:Hm.
    + split; [discriminate|]. intros (H & _ & Hd).
      destruct cols as [|c cols]; [discriminate H|]. injection H as E _.
      subst c. apply mem_In in Hm. exfalso. apply (Hd s); [now left|exact Hm].
    + specialize (IH (s :: d)).
      destruct (draw_checkboxes l (s :: d)) as [e|cols'].
      * split; [discriminate|]. intros (H & Hnd & Hd).
        destruct cols as [|c cols]; [discriminate H|]. injection H as E El.
        subst c l. inversion Hnd as [|? ? Hn Hnd']; subst.
        assert (@inl form_exn (list str) e = inr cols) as Habs;
          [|discriminate Habs].
        apply IH. split; [reflexivity|]. split; [exact Hnd'|].
        intros c Hc [<-|Hin]; [contradiction|]. apply (Hd c); [now right|exact Hin].
      * split.
        -- intros [= <-]. destruct (proj1 (IH cols') eq_refl) as (-> & Hnd & Hd).
           split; [reflexivity|]. split.
           ++ constructor; [|exact Hnd]. intros Hin. apply (Hd s Hin). now left.
           ++ intros c [<-|Hc]; [now apply mem_not_In|].
              intros Hin. apply (Hd c Hc). now right.
        -- intros (H & Hnd & Hd).
           destruct cols as [|c cols]; [discriminate H|]. injection H as E El.
           subst c l. inversion Hnd as [|? ? Hn Hnd']; subst.
           assert (@inr form_exn (list str) cols' = inr cols) as [= ->];
             [|reflexivity].
           apply IH. split; [reflexivity|]. split; [exact Hnd'|].
           intros c Hc [<-|Hin]; [contradiction|].
           apply (Hd c); [now right|exact Hin].
Qed.

(** The loop stops at the first label that is not a [str] or that is on
    the page already, with the exception of that label. *)
Lemma draw_checkboxes_raises (l : list label) (d : list str) (e : form_exn) :
  draw_checkboxes l d = inl e <->
  exists pre x post,
    l = map LStr pre ++ x :: post /\ NoDup pre /\
    (forall c, In c pre -> ~ In c d) /\
    match e with
    | TypeError => forall s, x <> LStr s
    | DuplicateWidgetID => exists c, x = LStr c /\ (In c pre \/ In c d)
    end.
Proof.
  split.
  - revert d. induction l as [|x l IH]; intros d; [discriminate|].
    destruct x as [s|z|q|t|b];
      try (match goal with
           | |- draw_checkboxes (?x :: _) _ = _ -> _ =>
               simpl; intros [= <-]; exists [], x, l;
               split; [reflexivity|]; split; [constructor|];
               split; [intros c []|]; intros s0; discriminate
           end).
    simpl. destruct (PyStr.mem s d) eqn:Hm.
    + intros [= <-]. exists [], (LStr s), l.
      split; [reflexivity|]. split; [constructor|]. split; [intros c []|].
      exists s. split; [reflexivity|]. right. now apply mem_In.
    + destruct (draw_checkboxes l (s :: d)) as [e'|cols'] eqn:Hrec;
        [|discriminate].
      intros [= ->]. apply IH in Hrec as (pre & x & post & -> & Hnd & Hd & He).
      exists (s :: pre), x, post. split; [reflexivity|]. split.
      * constructor; [|exact Hnd]. intros Hin. apply (Hd s Hin). now left.
      * split.
        -- intros c [<-|Hc]; [now apply mem_not_In|].
           intros Hin. apply (Hd c Hc). now right.
        -- destruct e; [exact He|].
           destruct He as (c & -> & [Hin|[E|Hin]]); exists c;
             (split; [reflexivity|]); simpl; auto.
  - intros (pre & x & post & -> & Hnd & Hd & He). revert d Hd He.
    induction pre as [|p pre IHp]; intros d Hd He.
    + simpl app. destruct e.
      * destruct x as [s|z|q|t|b]; try reflexivity.
        now elim (He s).
      * destruct He as (c & -> & [[]|Hin]). simpl.
        apply mem_In in Hin. now rewrite Hin.
    + inversion Hnd as [|? ? Hn Hnd']; subst. simpl.
      rewrite (proj2 (mem_not_In p d)) by (apply Hd; now left).
      rewrite (IHp Hnd' (p :: d)); [reflexivity| |].
      * intros c Hc [<-|Hin]; [contradiction|].
        apply (Hd c); [now right|exact Hin].
      * destruct e; [exact He|].
        destruct He as (c & -> & [[E|Hin]|Hin]); exists c;
          (split; [reflexivity|]); simpl; auto.
Qed.

Lemma map_LStr_inj (a b : list str) : map LStr a = map LStr b -> a = b.
Proof.
  revert b. induction a as [|x a IH]; intros [|y b] H; try discriminate H;
    [reflexivity|].
  injection H as -> H. f_equal. now apply IH.
Qed.

(** A run on a table whose form is drawn. *)
Lemma script_stage (read_csv read_excel : list N -> option RawFrame)
      (ui : str -> bool -> bool) (f : UploadedFile) (raw : RawFrame)
      (df : DataFrame) (submitted : bool) :
  read_file read_csv read_excel f = Some raw -> reads_as raw df ->
  script read_csv read_excel ui (Some f) submitted
  = if submitted then
      match feedback_cols_of (checkbox_states ui (columns df)) with
      | [] => NoColumn df
      | _ :: _ =>
          if PyStr.mem (PyStr.lit "Response") (columns df)
             || PyStr.mem (PyStr.lit "Criterion")
                  (id_vars_of df (feedback_cols_of
                                    (checkbox_states ui (columns df))))
          then Uncaught ValueError
          else Shown (bar (result df (feedback_cols_of
                            (checkbox_states ui (columns df)))))
      end
    else FormOnly df.
Proof.
  intros Hr (Hl & Hnd & Hrows). unfold script. rewrite Hr.
  assert (draw_checkboxes (raw_columns raw) [] = inr (columns df)) as ->.
  { apply draw_checkboxes_drawn. split; [exact Hl|]. split; [exact Hnd|].
    intros c _ []. }
  rewrite Hrows. destruct df as [labels rws]. cbn [columns rows].
  destruct submitted; [|reflexivity].
  rewrite on_submit_cases. cbn [columns].
  destruct (feedback_cols_of (checkbox_states ui labels)); [reflexivity|].
  destruct (_ || _); reflexivity.
Qed.

(** The four ways a run can go, by the stage it reaches. *)
Lemma script_cases (read_csv read_excel : list N -> option RawFrame)
      (ui : str -> bool -> bool) (uploaded_file : option UploadedFile)
      (submitted : bool) :
  (uploaded_file = None /\
   script read_csv read_excel ui uploaded_file submitted = NoFile) \/
  (exists f, uploaded_file = Some f /\
             read_file read_csv read_excel f = None /\
             script read_csv read_excel ui uploaded_file submitted
             = ReadFailed) \/
  (exists f raw e, uploaded_file = Some f /\
                   read_file read_csv read_excel f = Some raw /\
                   draw_checkboxes (raw_columns raw) [] = inl e /\
                   script read_csv read_excel ui uploaded_file submitted
                   = FormRaised e) \/
  (exists f raw df, uploaded_file = Some f /\
                    read_file read_csv read_excel f = Some raw /\
                    reads_as raw df).
Proof.
  destruct uploaded_file as [f|]; [right|left; now split].
  destruct (read_file read_csv read_excel f) as [raw|] eqn:Hr.
  - right.
    destruct (draw_checkboxes (raw_columns raw) []) as [e|cols] eqn:Hd.
    + left. exists f, raw, e.
      split; [reflexivity|]. split; [exact Hr|]. split; [exact Hd|].
      unfold script. now rewrite Hr, Hd.
    + right. exists f, raw, {| columns := cols; rows := raw_rows raw |}.
      apply draw_checkboxes_drawn in Hd as (Hl & Hnd & _).
      split; [reflexivity|]. split; [exact Hr|].
      split; [exact Hl|]. split; [exact Hnd|reflexivity].
  - left. exists f. split; [reflexivity|]. split; [exact Hr|].
    unfold script. now rewrite Hr.
Qed.

(** X14: a run of the script ends with the chart exactly when a file is
    uploaded, the reader returns a table, every label of the table is a
    [str] and none comes twice, the form is submitted, some box is
    ticked and the labels are free; the chart then carries the rows of
    the result, the number of rows of the table in its title (not the
    number of recognised answers), the sorted short names and the fixed
    colour scale.  An exception leaves the script in two places only.
    From the analysis of a submitted form with a ticked box it is
    pandas' [ValueError].  From the loop that draws the form, submitted
    or not, it is [TypeError] when the first label that is not a [str]
    comes before any repeated one, and [DuplicateWidgetID] when a label
    comes a second time after labels that are all [str]. *)
Theorem chart_is_shown_iff :
  forall (read_csv read_excel : list N -> option RawFrame)
         (ui : str -> bool -> bool)
         (uploaded_file : option UploadedFile) (submitted : bool),
    (forall ch,
        script read_csv read_excel ui uploaded_file submitted = Shown ch <->
        exists f raw df,
          uploaded_file = Some f /\
          read_file read_csv read_excel f = Some raw /\
          reads_as raw df /\
          submitted = true /\
          (exists c, In c (columns df) /\ ticked ui c = true) /\
          labels_free df (feedback_cols_of (checkbox_states ui (columns df))) /\
          ch = {| chart_data :=
                    df_perc (result df (feedback_cols_of
                                          (checkbox_states ui (columns df))));
                  chart_title :=
                    PyStr.lit "Student Feedback Analysis (N="
                      ++ PyStr.of_nat (length (rows df)) ++ PyStr.lit ")";
                  y_sort :=
                    sorted_criteria (feedback_cols_of
                                       (checkbox_states ui (columns df)));
                  scale_domain := color_domain;
                  scale_range := color_range |}) /\
    (forall e,
        script read_csv read_excel ui uploaded_file submitted = Uncaught e <->
        e = ValueError /\
        exists f raw df,
          uploaded_file = Some f /\
          read_file read_csv read_excel f = Some raw /\
          reads_as raw df /\
          submitted = true /\
          (exists c, In c (columns df) /\ ticked ui c = true) /\
          ~ labels_free df (feedback_cols_of (checkbox_states ui (columns df)))) /\
    (forall e,
        script read_csv read_excel ui uploaded_file submitted = FormRaised e <->
        exists f raw pre x post,
          uploaded_file = Some f /\
          read_file read_csv read_excel f = Some raw /\
          raw_columns raw = map LStr pre ++ x :: post /\
          NoDup pre /\
          match e with
          | TypeError => forall s, x <> LStr s
          | DuplicateWidgetID => exists c, x = LStr c /\ In c pre
          end).
Proof.
  intros read_csv read_excel ui uploaded_file submitted.
  split; [|split].
  - intros ch. split.
    + intros H.
      destruct (script_cases read_csv read_excel ui uploaded_file submitted)
        as [[_ E]|[(f & _ & _ & E)|[(f & raw & e & _ & _ & _ & E)
                                   |(f & raw & df & Hf & Hr & Hdf)]]];
        try (rewrite E in H; discriminate H).
      subst uploaded_file. rewrite (script_stage _ _ _ _ _ _ _ Hr Hdf) in H.
      destruct submitted; [|discriminate H].
      exists f, raw, df.
      destruct (feedback_cols_of (checkbox_states ui (columns df)))
        as [|c l] eqn:E; [discriminate H|].
      destruct (PyStr.mem (PyStr.lit "Response") (columns df)
                || PyStr.mem (PyStr.lit "Criterion") (id_vars_of df (c :: l)))
        eqn:Hl; [discriminate H|].
      injection H as <-. apply orb_false_iff in Hl.
      split; [reflexivity|]. split; [exact Hr|]. split; [exact Hdf|].
      split; [reflexivity|].
      split; [apply some_column_ticked; rewrite E; discriminate|].
      split; [apply labels_free_dec; exact Hl|reflexivity].
    + intros (f & raw & df & -> & Hr & Hdf & -> & Hex & Hfree & ->).
      rewrite (script_stage _ _ _ _ _ _ _ Hr Hdf).
      apply some_column_ticked in Hex.
      apply labels_free_dec in Hfree as [H1 H2].
      destruct (feedback_cols_of (checkbox_states ui (columns df)))
        as [|c l]; [congruence|].
      rewrite H1, H2. reflexivity.
  - intros e. split.
    + intros H.
      destruct (script_cases read_csv read_excel ui uploaded_file submitted)
        as [[_ E]|[(f & _ & _ & E)|[(f & raw & e' & _ & _ & _ & E)
                                   |(f & raw & df & Hf & Hr & Hdf)]]];
        try (rewrite E in H; discriminate H).
      subst uploaded_file. rewrite (script_stage _ _ _ _ _ _ _ Hr Hdf) in H.
      destruct submitted; [|discriminate H].
      destruct (feedback_cols_of (checkbox_states ui (columns df)))
        as [|c l] eqn:E; [discriminate H|].
      destruct (PyStr.mem (PyStr.lit "Response") (columns df)
                || PyStr.mem (PyStr.lit "Criterion") (id_vars_of df (c :: l)))
        eqn:Hl; [|discriminate H].
      injection H as <-. split; [reflexivity|]. exists f, raw, df.
      split; [reflexivity|]. split; [exact Hr|]. split; [exact Hdf|].
      split; [reflexivity|].
      split; [apply some_column_ticked; rewrite E; discriminate|].
      intros Hfree. apply labels_free_dec in Hfree as [H1 H2].
      rewrite E in H2. rewrite H1, H2 in Hl. discriminate Hl.
    + intros (-> & f & raw & df & -> & Hr & Hdf & -> & Hex & Hfree).
      rewrite (script_stage _ _ _ _ _ _ _ Hr Hdf).
      apply some_column_ticked in Hex.
      destruct (feedback_cols_of (checkbox_states ui (columns df)))
        as [|c l] eqn:E; [congruence|].
      destruct (PyStr.mem (PyStr.lit "Response") (columns df)
                || PyStr.mem (PyStr.lit "Criterion") (id_vars_of df (c :: l)))
        eqn:Hl; [reflexivity|].
      exfalso. apply Hfree. apply labels_free_dec.
      now apply orb_false_iff.
  - intros e. split.
    + intros H. unfold script in H.
      destruct uploaded_file as [f|]; [|discriminate H].
      destruct (read_file read_csv read_excel f) as [raw|] eqn:Hr;
        [|discriminate H].
      destruct (draw_checkboxes (raw_columns raw) []) as [e'|cols] eqn:Hd.
      * injection H as ->.
        apply draw_checkboxes_raises in Hd
          as (pre & x & post & Hl & Hnd & _ & He).
        exists f, raw, pre, x, post.
        split; [reflexivity|]. split; [exact Hr|]. split; [exact Hl|].
        split; [exact Hnd|].
        destruct e; [exact He|].
        destruct He as (c & -> & [Hin|[]]). now exists c.
      * cbv zeta in H. destruct submitted; [|discriminate H].
        destruct (on_submit ui _) as [res|[]]; discriminate H.
    + intros (f & raw & pre & x & post & -> & Hr & Hl & Hnd & He).
      unfold script. rewrite Hr.
      assert (draw_checkboxes (raw_columns raw) [] = inl e) as ->;
        [|reflexivity].
      apply draw_checkboxes_raises. exists pre, x, post.
      split; [exact Hl|]. split; [exact Hnd|]. split; [intros c _ []|].
      destruct e; [exact He|].
      destruct He as (c & -> & Hin). exists c. auto.
Qed.

Lemma chart_is_shown_iff_witness :
  script csv_reader failing_reader all_ticked (Some survey_file) true
  = Shown
      {| chart_data :=
           df_perc (result class_survey
                           (feedback_cols_of
                              (checkbox_states all_ticked (columns class_survey))));
         chart_title := PyStr.lit "Student Feedback Analysis (N=4)";
         y_sort :=
           sorted_criteria (feedback_cols_of
                              (checkbox_states all_ticked (columns class_survey)));
         scale_domain := color_domain;
         scale_range := color_range |} /\
  script failing_reader excel_reader untouched (Some sheet_file) false
  = FormRaised TypeError.
Proof.
  split.
  - apply (proj1 (chart_is_shown_iff csv_reader failing_reader all_ticked
                    (Some survey_file) true)).
    exists survey_file, (as_read class_survey), class_survey.
    split; [reflexivity|]. split; [reflexivity|].
    split.
    { split; [reflexivity|]. split; [|reflexivity].
      repeat constructor; simpl; intros H;
        repeat (destruct H as [H|H]; try discriminate H); exact H. }
    split; [reflexivity|].
    split; [exists (PyStr.lit "Pace"); split; [simpl; auto|reflexivity]|].
    split; [|reflexivity].
    apply labels_free_dec. split; reflexivity.
  - apply (proj2 (proj2 (chart_is_shown_iff failing_reader excel_reader
                           untouched (Some sheet_file) false))).
    exists sheet_file, yearly_sheet, [PyStr.lit "Name"], (LInt 2024), [].
    split; [reflexivity|]. split; [reflexivity|]. split; [reflexivity|].
    split; [repeat constructor; intros []|]. discriminate.
Defined.

(** X15: the file goes to the CSV reader exactly when its name ends in
    [.csv], in lower case; every other name, [SURVEY.CSV] included, goes
    to the Excel reader.  When the reader chosen fails, the run stops
    with the error before the form, submitted or not.  A run that is not
    submitted shows the form exactly when the reader returns a table
    whose labels are all [str] and all different, and the form is that
    of this table. *)
Theorem file_is_read_by_extension :
  forall (read_csv read_excel : list N -> option RawFrame)
         (ui : str -> bool -> bool) (f : UploadedFile) (submitted : bool),
    (((exists stem, file_name f = stem ++ PyStr.lit ".csv") /\
      read_file read_csv read_excel f = read_csv (file_data f)) \/
     ((forall stem, file_name f <> stem ++ PyStr.lit ".csv") /\
      read_file read_csv read_excel f = read_excel (file_data f))) /\
    (script read_csv read_excel ui (Some f) submitted = ReadFailed <->
     read_file read_csv read_excel f = None) /\
    (forall df, script read_csv read_excel ui (Some f) false = FormOnly df <->
                exists raw, read_file read_csv read_excel f = Some raw /\
                            reads_as raw df).
Proof.
  intros read_csv read_excel ui f submitted. split; [|split].
  - unfold read_file.
    destruct (endswith (PyStr.lit ".csv") (file_name f)) eqn:E.
    + left. split; [|reflexivity]. now apply endswith_spec.
    + right. split; [|reflexivity]. intros stem H.
      assert (endswith (PyStr.lit ".csv") (file_name f) = true) as E'
          by (apply endswith_spec; eauto).
      congruence.
  - unfold script. destruct (read_file read_csv read_excel f) as [raw|].
    + split; [|discriminate].
      destruct (draw_checkboxes (raw_columns raw) []); [discriminate|].
      cbv zeta. destruct submitted; [|discriminate].
      destruct (on_submit ui _) as [res|[]]; discriminate.
    + split; reflexivity.
  - intros df. split.
    + intros H.
      destruct (script_cases read_csv read_excel ui (Some f) false)
        as [[E _]|[(f' & _ & _ & E)|[(f' & raw & e & _ & _ & _ & E)
                                    |(f' & raw & df' & Hf & Hr & Hdf)]]];
        try discriminate E; try (rewrite E in H; discriminate H).
      injection Hf as <-.
      rewrite (script_stage _ _ _ _ _ _ _ Hr Hdf) in H. injection H as <-.
      now exists raw.
    + intros (raw & Hr & Hdf). now rewrite (script_stage _ _ _ _ _ _ _ Hr Hdf).
Qed.

Lemma file_is_read_by_extension_witness :
  read_file csv_reader failing_reader survey_file = Some (as_read class_survey) /\
  script csv_reader failing_reader untouched
         (Some {| file_name := PyStr.lit "SURVEY.CSV"; file_data := [] |}) true
  = ReadFailed.
Proof.
  split.
  - destruct (proj1 (file_is_read_by_extension csv_reader failing_reader
                       untouched survey_file true)) as [[_ H]|[H _]].
    + exact H.
    + now elim (H (PyStr.lit "survey")).
  - apply (proj1 (proj2 (file_is_read_by_extension csv_reader failing_reader
                           untouched
                           {| file_name := PyStr.lit "SURVEY.CSV";
                              file_data := [] |} true))).
    reflexivity.
Defined.
